(** * pony.dbproviders.postgres: converters, connection lease, table creation

    A shallow embedding of [pony/dbproviders/postgres.py] (Python 2) and
    the properties of its value converters, of the binary escape codec,
    of [Pool] and of [PGTable.create].

    Conventions of the embedding:
    - a Python 2 [str] (and the content of a [buffer]) is a [list byte];
    - [int] and [long] are [Z];
    - a call that may raise returns a [result];
    - code that talks to the database driver threads an explicit state
      and records every call it makes to the driver in a trace. *)

From Stdlib Require Import ZArith NArith List Bool Lia String Ascii.
From Stdlib.Strings Require Import Byte.
From stdpp Require Import base option gmap strings.
Import ListNotations.

Local Open Scope Z_scope.

(** ** Exceptions and results *)

(** The DB-API error kinds re-exported by the module (lines 14-16). *)
Inductive dbkind :=
| KWarning | KError | KInterfaceError | KDatabaseError | KDataError
| KOperationalError | KIntegrityError | KInternalError
| KProgrammingError | KNotSupportedError.

Inductive exn :=
| TypeError
| ValueError
| NameError
| AttributeError
| AssertionError
| InvalidOperation
| UnicodeDecodeError
| UnicodeEncodeError
| DBException (k : dbkind) (msg : string).

Inductive result (A : Type) :=
| Ok (a : A)
| Raise (e : exn).
Arguments Ok {A} a.
Arguments Raise {A} e.

Definition rbind {A B} (r : result A) (k : A -> result B) : result B :=
  match r with
  | Ok a => k a
  | Raise e => Raise e
  end.

Notation "x <- r ;; k" := (rbind r (fun x => k))
  (at level 100, r at next level, right associativity).

(** ** Bytes *)

Definition ord (c : byte) : Z := Z.of_N (Byte.to_N c).

(** [chr(i)]: raises ValueError outside [range(256)]. *)
Definition chr (i : Z) : result byte :=
  if (0 <=? i) && (i <? 256)
  then match Byte.of_N (Z.to_N i) with
       | Some c => Ok c
       | None => Raise ValueError
       end
  else Raise ValueError.

Definition backslash : byte := "\"%byte.

Definition byte_eqb (a b : byte) : bool := Byte.eqb a b.

(** The digit character of [d] for [0 <= d < 10]. *)
Definition digit_char (d : Z) : byte :=
  match Byte.of_N (Z.to_N (48 + d)) with
  | Some c => c
  | None => "0"%byte
  end.

Definition is_octal_digit (c : byte) : bool :=
  (48 <=? ord c) && (ord c <=? 55).

Definition octal_value (c : byte) : Z := ord c - 48.

(** ** The escape table (lines 317-323) *)

Module Codec.

(** Digits of [n] in base 8, most significant first; empty for 0. *)
Fixpoint oct_digits (fuel : nat) (n : Z) (acc : list byte) : list byte :=
  match fuel with
  | O => acc
  | S fuel' =>
      if n <=? 0 then acc
      else oct_digits fuel' (n / 8) (digit_char (n mod 8) :: acc)
  end.

(** Python 2 [oct(i)] for [i >= 0]: a leading ['0'] and the octal digits,
    so [oct(0) = '0'], [oct(8) = '010'], [oct(255) = '0377']. *)
Definition oct (i : Z) : list byte :=
  "0"%byte :: oct_digits (S (Z.to_nat i)) i [].

(** [s[-3:]] *)
Definition last3 (s : list byte) : list byte :=
  skipn (length s - 3) s.

(** One entry of [char2oct], as the loop and the assignment after it
    leave it. *)
Definition char2oct (ch : byte) : list byte :=
  if byte_eqb ch backslash then [backslash; backslash]
  else
    let i := ord ch in
    if (31 <? i) && (i <? 127) then [ch]
    else backslash :: last3 ("0"%byte :: "0"%byte :: oct i).

(** [oct_re = re.compile(r'\\[0-7]{3}')] with
    [oct_re.sub(lambda match: chr(int(match.group(0)[-3:], 8)), s)]:
    leftmost non-overlapping matches are replaced, everything else is
    copied. *)
Fixpoint oct_re_sub (s : list byte) : result (list byte) :=
  match s with
  | [] => Ok []
  | c0 :: t =>
      match t with
      | c1 :: c2 :: c3 :: r =>
          if byte_eqb c0 backslash && is_octal_digit c1
             && is_octal_digit c2 && is_octal_digit c3
          then
            c <- chr (64 * octal_value c1 + 8 * octal_value c2
                      + octal_value c3) ;;
            r' <- oct_re_sub r ;;
            Ok (c :: r')
          else
            t' <- oct_re_sub t ;; Ok (c0 :: t')
      | _ => t' <- oct_re_sub t ;; Ok (c0 :: t')
      end
  end.

(** [s.replace('\\\\', '\\')]: leftmost non-overlapping pairs of
    backslashes become one backslash. *)
Fixpoint replace_bs (s : list byte) : list byte :=
  match s with
  | [] => []
  | c0 :: t =>
      match t with
      | c1 :: r =>
          if byte_eqb c0 backslash && byte_eqb c1 backslash
          then backslash :: replace_bs r
          else c0 :: replace_bs t
      | [] => [c0]
      end
  end.

(** [binascii.unhexlify]: pairs of hexadecimal digits, either case;
    TypeError on an odd length or on any other character. *)
Definition hex_value (c : byte) : option Z :=
  let i := ord c in
  if (48 <=? i) && (i <=? 57) then Some (i - 48)
  else if (97 <=? i) && (i <=? 102) then Some (i - 87)
  else if (65 <=? i) && (i <=? 70) then Some (i - 55)
  else None.

Fixpoint unhexlify (s : list byte) : result (list byte) :=
  match s with
  | [] => Ok []
  | [_] => Raise TypeError
  | h :: l :: r =>
      match hex_value h, hex_value l with
      | Some a, Some b =>
          c <- chr (16 * a + b) ;;
          r' <- unhexlify r ;;
          Ok (c :: r')
      | _, _ => Raise TypeError
      end
  end.

End Codec.

(** ** BlobConverter.py2sql, BlobConverter.sql2py (lines 337-343) *)

Module BlobConverter.

Definition py2sql (val : list byte) : list byte :=
  concat (map Codec.char2oct val).

Definition startswith_bs_x (val : list byte) : bool :=
  match val with
  | c0 :: c1 :: _ => byte_eqb c0 backslash && byte_eqb c1 "x"%byte
  | _ => false
  end.

Definition sql2py (val : list byte) : result (list byte) :=
  if startswith_bs_x val then Codec.unhexlify (skipn 2 val)
  else Codec.oct_re_sub (Codec.replace_bs val).

End BlobConverter.

(** ** Python values *)

(** [decimal.Decimal], finite values: [coefficient * 10 ^ exponent]. *)
Record Decimal := { coefficient : Z; exponent : Z }.

(** [datetime.date] and [datetime.datetime] (without tzinfo). *)
Record date := { year : Z; month : Z; day : Z }.

Record datetime := {
  dt_year : Z; dt_month : Z; dt_day : Z;
  hour : Z; minute : Z; second : Z; microsecond : Z
}.

Inductive pyval :=
| VNone
| VBool (b : bool)
| VInt (n : Z)                  (* int, long *)
| VStr (s : list byte)          (* str *)
| VUnicode (u : list Z)         (* unicode, as code points *)
| VBuffer (s : list byte)       (* buffer *)
| VDecimal (d : Decimal)
| VDate (d : date)
| VDatetime (t : datetime).

(** The attribute types the converters look at. *)
Inductive pytype :=
| TBool | TUnicode | TStr | TLong | TInt | TFloat | TDecimal | TBuffer
| TDatetime | TDate
| TLongStr | TLongUnicode.      (* pony.clobtypes *)

(** [issubclass(py_type, (LongStr, LongUnicode))] *)
Definition is_clob (t : pytype) : bool :=
  match t with
  | TLongStr | TLongUnicode => true
  | _ => false
  end.

(** What a converter reads of an attribute. *)
Record Attr := {
  py_type : pytype;
  args : list pyval;
  keyargs : gmap string pyval
}.

(** [isinstance(v, (int, long))] and the integer it denotes; [bool] is a
    subclass of [int] whose values compare and format as 0 and 1. *)
Definition as_int (v : pyval) : option Z :=
  match v with
  | VInt n => Some n
  | VBool b => Some (Z.b2z b)
  | _ => None
  end.

(** [len(v)]: TypeError for a value without a length. *)
Definition len (v : pyval) : result Z :=
  match v with
  | VStr s => Ok (Z.of_nat (length s))
  | VUnicode u => Ok (Z.of_nat (length u))
  | VBuffer s => Ok (Z.of_nat (length s))
  | _ => Raise TypeError
  end.

(** [d.pop(key, default)] *)
Definition pop (key : string) (dflt : pyval) (d : gmap string pyval)
  : pyval * gmap string pyval :=
  (default dflt (d !! key), delete key d).

(** An instance attribute that may not have been assigned yet. *)
Definition getattr {A} (slot : option A) : result A :=
  match slot with
  | Some a => Ok a
  | None => Raise AttributeError
  end.

(** [bound and val < bound], [bound and val > bound], where [bound] is
    None or an integer: None and 0 are both false. *)
Definition and_lt (bound : option Z) (val : Z) : bool :=
  match bound with
  | Some b => negb (b =? 0) && (val <? b)
  | None => false
  end.

Definition and_gt (bound : option Z) (val : Z) : bool :=
  match bound with
  | Some b => negb (b =? 0) && (b <? val)
  | None => false
  end.

(** [unexpected_args] is called but neither defined nor imported by the
    module: the call raises NameError. *)
Definition unexpected_args {A} : result A := Raise NameError.

(** ** Converter.__init__ (lines 114-119) *)

(** [dflt] is the instance as the subclass constructor left it before
    calling [Converter.__init__]; [init] is the subclass's [init], which
    consumes the options it knows from the copy of [attr.keyargs]. *)
Definition Converter_init {C : Type}
    (init : Attr -> C -> gmap string pyval -> result (C * gmap string pyval))
    (dflt : C) (attr : option Attr) : result C :=
  match attr with
  | None => Ok dflt
  | Some a =>
      r <- init a dflt (keyargs a) ;;
      if decide (r.2 = ∅) then Ok r.1 else Raise TypeError
  end.

(** ** BasestringConverter (lines 140-170), UnicodeConverter.validate *)

Inductive column_type :=
| VARCHAR (n : Z)                  (* 'VARCHAR(%d)' % max_len *)
| TEXT_CHARACTER_SET (enc : pyval). (* 'TEXT CHARACTER SET %s' % db_encoding *)

Module BasestringConverter.

Record t := {
  attr : option Attr;
  max_len : option (option Z);    (* unassigned, None, or an int *)
  db_encoding : pyval
}.

(** The instance before [Converter.__init__] runs. *)
Definition fresh (a : option Attr) : t :=
  {| attr := a; max_len := None; db_encoding := VNone |}.

Definition init (a : Attr) (converter : t) (keyargs : gmap string pyval)
  : result (t * gmap string pyval) :=
  max_len0 <-
    match args a with
    | [] => Ok VNone
    | [x] => Ok x
    | _ => unexpected_args
    end ;;
  max_len1 <-
    (if is_clob (py_type a) then
       match max_len0 with
       | VNone => Ok None
       | _ => Raise TypeError
       end
     else
       match max_len0 with
       | VNone => Ok (Some 200)
       | v => match as_int v with
              | Some n => Ok (Some n)
              | None => Raise TypeError
              end
       end) ;;
  let (enc, keyargs') := pop "db_encoding" (VStr ["u"; "t"; "f"; "8"]%byte) keyargs in
  Ok ({| attr := attr converter; max_len := Some max_len1; db_encoding := enc |},
      keyargs').

Definition new (a : option Attr) : result t :=
  Converter_init init (fresh a) a.

Definition validate (converter : t) (val : pyval) : result pyval :=
  max_len <- getattr (max_len converter) ;;
  val_len <- len val ;;
  if and_gt max_len val_len then Raise ValueError
  else if val_len =? 0 then Raise ValueError
  else Ok val.

Definition sql_type (converter : t) : result column_type :=
  max_len <- getattr (max_len converter) ;;
  match max_len with
  | Some n => if negb (n =? 0) then Ok (VARCHAR n)
              else Ok (TEXT_CHARACTER_SET (db_encoding converter))
  | None => Ok (TEXT_CHARACTER_SET (db_encoding converter))
  end.

End BasestringConverter.

Module UnicodeConverter.

(** [s.decode('ascii')] *)
Definition decode_ascii (s : list byte) : result (list Z) :=
  if forallb (fun c => ord c <? 128) s then Ok (map ord s)
  else Raise UnicodeDecodeError.

Definition validate (converter : BasestringConverter.t) (val : pyval)
  : result pyval :=
  val' <-
    match val with
    | VNone => Ok val
    | VStr s => u <- decode_ascii s ;; Ok (VUnicode u)
    | VUnicode _ => Ok val
    | _ => Raise TypeError
    end ;;
  BasestringConverter.validate converter val'.

End UnicodeConverter.

(** ** IntConverter (lines 203-226); LongConverter inherits both methods *)

Module IntConverter.

Record t := {
  attr : option Attr;
  min_val : option (option Z);
  max_val : option (option Z)
}.

Definition fresh (a : option Attr) : t :=
  {| attr := a; min_val := None; max_val := None |}.

(** [x = keyargs.pop(name, None)] followed by the check that [x] is None
    or an int. *)
Definition pop_int_bound (name : string) (keyargs : gmap string pyval)
  : result (option Z * gmap string pyval) :=
  let (v, keyargs') := pop name VNone keyargs in
  match v with
  | VNone => Ok (None, keyargs')
  | _ => match as_int v with
         | Some n => Ok (Some n, keyargs')
         | None => Raise TypeError
         end
  end.

Definition init (a : Attr) (converter : t) (keyargs : gmap string pyval)
  : result (t * gmap string pyval) :=
  _ <- match args a with [] => Ok tt | _ => unexpected_args end ;;
  r1 <- pop_int_bound "min" keyargs ;;
  r2 <- pop_int_bound "max" r1.2 ;;
  Ok ({| attr := attr converter; min_val := Some r1.1; max_val := Some r2.1 |},
      r2.2).

Definition new (a : option Attr) : result t :=
  Converter_init init (fresh a) a.

Definition validate (converter : t) (val : pyval) : result pyval :=
  match as_int val with
  | None => Raise TypeError
  | Some n =>
      mn <- getattr (min_val converter) ;;
      if and_lt mn n then Raise ValueError
      else
        mx <- getattr (max_val converter) ;;
        if and_gt mx n then Raise ValueError
        else Ok val
  end.

End IntConverter.

(** ** DecimalConverter (lines 262-315) *)

(** The parts of the [decimal] module the converter calls but whose
    definition is not this module's business: the parser of decimal
    literals, and the ordering between an arbitrary value and a Decimal
    (used by comparisons such as [val < converter.min_val]). *)
Record decimal_lib := {
  Decimal_of_text : pyval -> option Decimal;
  lt_mixed : pyval -> Decimal -> bool;
  gt_mixed : pyval -> Decimal -> bool
}.

(** Control flow of a statement inside a function body. *)
Inductive flow :=
| Next                    (* fall through to the next statement *)
| Return (v : pyval)
| Throw (e : exn).

Definition then_ (s1 s2 : flow) : flow :=
  match s1 with
  | Next => s2
  | _ => s1
  end.

Infix ">>" := then_ (at level 65, right associativity).

(** A body that falls off its end returns None. *)
Definition run_body (b : flow) : result pyval :=
  match b with
  | Next => Ok VNone
  | Return v => Ok v
  | Throw e => Raise e
  end.

Module DecimalConverter.

Record t := {
  attr : option Attr;
  precision : option Z;
  scale : option Z;
  exp : option Decimal;
  min_val : option (option Decimal);
  max_val : option (option Decimal)
}.

Definition fresh (a : option Attr) : t :=
  {| attr := a; precision := None; scale := None; exp := None;
     min_val := None; max_val := None |}.

(** [Decimal(v)] *)
Definition Decimal_new (L : decimal_lib) (v : pyval) : result Decimal :=
  match v with
  | VDecimal d => Ok d
  | VInt n => Ok {| coefficient := n; exponent := 0 |}
  | VBool b => Ok {| coefficient := Z.b2z b; exponent := 0 |}
  | VStr _ | VUnicode _ =>
      match Decimal_of_text L v with
      | Some d => Ok d
      | None => Raise InvalidOperation
      end
  | _ => Raise TypeError
  end.

(** The value [precision] is read from: [args[0]] or the keyword. *)
Definition declared_precision (a : Attr) (keyargs : gmap string pyval)
  : pyval * gmap string pyval :=
  match args a with
  | x :: _ => (x, keyargs)
  | [] => pop "precision" (VInt 12) keyargs
  end.

(** The value [scale] is read from: [args[1]] or the keyword. *)
Definition declared_scale (a : Attr) (keyargs : gmap string pyval)
  : pyval * gmap string pyval :=
  match args a with
  | [_; y] => (y, keyargs)
  | _ => pop "scale" (VInt 2) keyargs
  end.

(** [x = keyargs.pop(name, None)] and its conversion by [Decimal]. *)
Definition pop_decimal_bound (L : decimal_lib) (name : string)
    (keyargs : gmap string pyval)
  : result (option Decimal * gmap string pyval) :=
  let (v, keyargs') := pop name VNone keyargs in
  match v with
  | VNone => Ok (None, keyargs')
  | _ => d <- Decimal_new L v ;; Ok (Some d, keyargs')
  end.

Definition init (L : decimal_lib) (a : Attr) (converter : t)
    (keyargs : gmap string pyval) : result (t * gmap string pyval) :=
  if (2 <? length (args a))%nat then Raise TypeError
  else
    let (precision, k1) := declared_precision a keyargs in
    match as_int precision with
    | None => Raise TypeError
    | Some p =>
        if p <=? 0 then Raise TypeError
        else
          let (scale, k2) := declared_scale a k1 in
          match as_int scale with
          | None => Raise TypeError
          | Some s =>
              if s <=? 0 then Raise TypeError
              else if p <? s then Raise ValueError
              else
                r1 <- pop_decimal_bound L "min" k2 ;;
                r2 <- pop_decimal_bound L "max" r1.2 ;;
                Ok ({| attr := attr converter;
                       precision := Some p;
                       scale := Some s;
                       exp := Some {| coefficient := 1; exponent := - s |};
                       min_val := Some r1.1;
                       max_val := Some r2.1 |},
                    r2.2)
          end
    end.

Definition new (L : decimal_lib) (a : option Attr) : result t :=
  Converter_init (init L) (fresh a) a.

(** The four statements of the body, in source order. *)
Definition validate_stmt1 (val : pyval) : flow :=
  match val with
  | VDecimal _ => Return val
  | _ => Next
  end.

Definition validate_stmt2 (L : decimal_lib) (val : pyval) : flow :=
  match Decimal_new L val with
  | Ok d => Return (VDecimal d)
  | Raise InvalidOperation => Throw TypeError
  | Raise e => Throw e
  end.

Definition validate_stmt3 (L : decimal_lib) (converter : t) (val : pyval)
  : flow :=
  match getattr (min_val converter) with
  | Raise e => Throw e
  | Ok None => Next
  | Ok (Some m) => if lt_mixed L val m then Throw ValueError else Next
  end.

Definition validate_stmt4 (L : decimal_lib) (converter : t) (val : pyval)
  : flow :=
  match getattr (max_val converter) with
  | Raise e => Throw e
  | Ok None => Next
  | Ok (Some m) => if gt_mixed L val m then Throw ValueError else Next
  end.

Definition validate (L : decimal_lib) (converter : t) (val : pyval)
  : result pyval :=
  run_body (validate_stmt1 val
            >> validate_stmt2 L val
            >> validate_stmt3 L converter val
            >> validate_stmt4 L converter val).

End DecimalConverter.

(** Numeric order of two finite decimals. *)
Definition Decimal_ltb (a b : Decimal) : bool :=
  let e := Z.min (exponent a) (exponent b) in
  coefficient a * 10 ^ (exponent a - e) <? coefficient b * 10 ^ (exponent b - e).

(** ** The [datetime] module *)

Definition is_leap (y : Z) : bool :=
  (y mod 4 =? 0) && (negb (y mod 100 =? 0) || (y mod 400 =? 0)).

Definition days_in_month (y m : Z) : Z :=
  if m =? 2 then (if is_leap y then 29 else 28)
  else if (m =? 4) || (m =? 6) || (m =? 9) || (m =? 11) then 30
  else 31.

Definition valid_ymd (y m d : Z) : bool :=
  (1 <=? y) && (y <=? 9999) && (1 <=? m) && (m <=? 12)
  && (1 <=? d) && (d <=? days_in_month y m).

Definition valid_date (d : date) : bool := valid_ymd (year d) (month d) (day d).

Definition valid_datetime (t : datetime) : bool :=
  valid_ymd (dt_year t) (dt_month t) (dt_day t)
  && (0 <=? hour t) && (hour t <? 24)
  && (0 <=? minute t) && (minute t <? 60)
  && (0 <=? second t) && (second t <? 60)
  && (0 <=? microsecond t) && (microsecond t <? 1000000).

(** [datetime(y, m, d)] *)
Definition datetime_new (y m d : Z) : result datetime :=
  if valid_ymd y m d
  then Ok {| dt_year := y; dt_month := m; dt_day := d;
             hour := 0; minute := 0; second := 0; microsecond := 0 |}
  else Raise ValueError.

(** [t.date()] *)
Definition datetime_date (t : datetime) : date :=
  {| year := dt_year t; month := dt_month t; day := dt_day t |}.

(** *** [datetime.strptime(s, '%Y-%m-%d')]

    The format compiles to the regular expression
    [(?P<Y>\d\d\d\d)-(?P<m>1[0-2]|0[1-9]|[1-9])-(?P<d>3[01]|[12]\d|0[1-9]|[1-9]| [1-9])],
    matched at the start of the text; alternatives are tried in order,
    each with the rest of the pattern as its continuation. Text left
    after the match, or fields that are no date, raise ValueError. *)

Definition in_range (lo hi c : Z) : bool := (lo <=? c) && (c <=? hi).

Definition digit_val (c : Z) : Z := c - 48.

Definition orelse {A} (x y : option A) : option A :=
  match x with
  | Some _ => x
  | None => y
  end.

Definition re_Y {A} (s : list Z) (k : Z -> list Z -> option A) : option A :=
  match s with
  | a :: b :: c :: d :: r =>
      if in_range 48 57 a && in_range 48 57 b && in_range 48 57 c
         && in_range 48 57 d
      then k (1000 * digit_val a + 100 * digit_val b + 10 * digit_val c
              + digit_val d) r
      else None
  | _ => None
  end.

Definition re_lit {A} (ch : Z) (s : list Z) (k : list Z -> option A)
  : option A :=
  match s with
  | c :: r => if c =? ch then k r else None
  | [] => None
  end.

(** One alternative made of two characters, then one made of one. *)
Definition re_two {A} (p1 p2 : Z -> bool) (s : list Z)
    (k : Z -> list Z -> option A) : option A :=
  match s with
  | a :: b :: r =>
      if p1 a && p2 b
      then k (10 * (if a =? 32 then 0 else digit_val a) + digit_val b) r
      else None
  | _ => None
  end.

Definition re_one {A} (p : Z -> bool) (s : list Z)
    (k : Z -> list Z -> option A) : option A :=
  match s with
  | a :: r => if p a then k (digit_val a) r else None
  | [] => None
  end.

Definition re_m {A} (s : list Z) (k : Z -> list Z -> option A) : option A :=
  orelse (re_two (Z.eqb 49) (in_range 48 50) s k)
  (orelse (re_two (Z.eqb 48) (in_range 49 57) s k)
          (re_one (in_range 49 57) s k)).

Definition re_d {A} (s : list Z) (k : Z -> list Z -> option A) : option A :=
  orelse (re_two (Z.eqb 51) (in_range 48 49) s k)
  (orelse (re_two (in_range 49 50) (in_range 48 57) s k)
  (orelse (re_two (Z.eqb 48) (in_range 49 57) s k)
  (orelse (re_one (in_range 49 57) s k)
          (re_two (Z.eqb 32) (in_range 49 57) s k)))).

(** The match: the three fields and the text left after it. *)
Definition format_regex_match (s : list Z) : option (Z * Z * Z * list Z) :=
  re_Y s (fun y s1 =>
  re_lit 45 s1 (fun s2 =>
  re_m s2 (fun m s3 =>
  re_lit 45 s3 (fun s4 =>
  re_d s4 (fun d rest => Some (y, m, d, rest)))))).

Definition strptime_Ymd (s : list Z) : result datetime :=
  match format_regex_match s with
  | None => Raise ValueError
  | Some (y, m, d, rest) =>
      match rest with
      | [] => datetime_new y m d
      | _ => Raise ValueError
      end
  end.

(** ** DateConverter (lines 358-372) *)

Module DateConverter.

Definition validate (val : pyval) : result pyval :=
  match val with
  | VDatetime t => Ok (VDate (datetime_date t))
  | VDate _ => Ok val
  | _ => Raise TypeError
  end.

Definition py2sql (val : pyval) : result pyval :=
  match val with
  | VDate d => t <- datetime_new (year d) (month d) (day d) ;; Ok (VDatetime t)
  | VDatetime t =>
      t' <- datetime_new (dt_year t) (dt_month t) (dt_day t) ;; Ok (VDatetime t')
  | _ => Raise AttributeError
  end.

(** [datetime.strptime] takes its two arguments as C strings: a value
    that is no text raises TypeError, a unicode string is first encoded
    as ASCII (UnicodeEncodeError above 127), and text with a NUL
    character raises TypeError, all before any parsing. *)
Definition strptime_argument (val : pyval) : result (list Z) :=
  match val with
  | VStr s =>
      if existsb (Z.eqb 0) (map ord s) then Raise TypeError
      else Ok (map ord s)
  | VUnicode u =>
      if existsb (Z.ltb 127) u then Raise UnicodeEncodeError
      else if existsb (Z.eqb 0) u then Raise TypeError
      else Ok u
  | _ => Raise TypeError
  end.

Definition sql2py (val : pyval) : result pyval :=
  s <- strptime_argument val ;;
  t <- strptime_Ymd s ;;
  Ok (VDate (datetime_date t)).

End DateConverter.

(** The text of a DATE cell in ISO style, [YYYY-MM-DD], which is what
    [sql2py] is written to read. *)
Definition date_literal (d : date) : list byte :=
  [digit_char (year d / 1000); digit_char (year d / 100 mod 10);
   digit_char (year d / 10 mod 10); digit_char (year d mod 10);
   "-"%byte;
   digit_char (month d / 10); digit_char (month d mod 10);
   "-"%byte;
   digit_char (day d / 10); digit_char (day d mod 10)].

(** ** The database driver *)

(** A connection object, by identity. *)
Definition handle := nat.

(** What the module asks of the world outside it: the [pgdb] connection
    factory, the methods of a connection, the inherited
    [dbschema.Table.create], and the exception translation of
    [orm.wrap_dbapi_exceptions]. Each call may raise and may change the
    state of the world. [in_failed_transaction] observes whether the
    session of a connection is in the aborted state in which PostgreSQL
    refuses every statement. *)
Class Driver := {
  world : Type;
  pgdb_connect : list pyval -> gmap string pyval -> world -> result handle * world;
  con_rollback : handle -> world -> result unit * world;
  con_close : handle -> world -> result unit * world;
  Table_create : handle -> world -> result unit * world;
  wrap_dbapi_exn : exn -> exn;
  in_failed_transaction : world -> handle -> bool
}.

(** The calls this module makes to the driver, in order. *)
Inductive call :=
| CallConnect
| CallRollback (h : handle)
| CallClose (h : handle)
| CallTableCreate (h : handle).

Record env `{Driver} := {
  db : world;
  calls : list call
}.

(** State and exceptions. A raise keeps the state reached so far. *)
Definition M (S A : Type) : Type := S -> result A * S.

Definition ret {S A} (a : A) : M S A := fun s => (Ok a, s).

Definition raise {S A} (e : exn) : M S A := fun s => (Raise e, s).

Definition bind {S A B} (m : M S A) (k : A -> M S B) : M S B :=
  fun s =>
    match m s with
    | (Ok a, s') => k a s'
    | (Raise e, s') => (Raise e, s')
    end.

(** [try: m  except: h e] *)
Definition try_except {S A} (m : M S A) (h : exn -> M S A) : M S A :=
  fun s =>
    match m s with
    | (Ok a, s') => (Ok a, s')
    | (Raise e, s') => h e s'
    end.

Notation "x <~ m ;; k" := (bind m (fun x => k))
  (at level 100, m at next level, right associativity).

(** [assert b] *)
Definition assert_ {S} (b : bool) : M S unit :=
  if b then ret tt else raise AssertionError.

(** A call to the driver, recorded. *)
Definition driver_call `{Driver} {A} (c : call)
    (f : world -> result A * world) : M env A :=
  fun s =>
    let (r, w') := f (db s) in
    (r, {| db := w'; calls := calls s ++ [c] |}).

(** [orm.wrap_dbapi_exceptions(provider, func)]: calls [func] and
    re-raises what it raises in translated form. *)
Definition wrap_dbapi_exceptions `{Driver} {S A} (func : M S A) : M S A :=
  try_except func (fun e => raise (wrap_dbapi_exn e)).

(** ** PGTable.create (lines 24-31) *)

(** [isinstance(e, orm.DatabaseError)] *)
Definition is_DatabaseError (e : exn) : bool :=
  match e with
  | DBException k _ =>
      match k with
      | KDatabaseError | KDataError | KOperationalError | KIntegrityError
      | KInternalError | KProgrammingError | KNotSupportedError => true
      | _ => false
      end
  | _ => false
  end.

(** [needle in hay] for strings *)
Fixpoint contains (needle hay : string) : bool :=
  String.prefix needle hay
  || match hay with
     | EmptyString => false
     | String _ r => contains needle r
     end.

(** [e.args[0]] *)
Definition message (e : exn) : string :=
  match e with
  | DBException _ msg => msg
  | _ => EmptyString
  end.

Module PGTable.

Definition create `{Driver} (connection : handle) : M env unit :=
  try_except
    (driver_call (CallTableCreate connection) (Table_create connection))
    (fun e =>
       if is_DatabaseError e then
         if negb (contains "already exists" (message e)) then raise e
         else
           wrap_dbapi_exceptions
             (driver_call (CallRollback connection) (con_rollback connection))
       else raise e).

End PGTable.

(** ** Pool (lines 74-92) *)

Module Pool.

Record t := {
  pool_args : list pyval;
  pool_keyargs : gmap string pyval;
  con : option handle
}.

(** [Pool.__init__] *)
Definition new (args : list pyval) (keyargs : gmap string pyval) : t :=
  {| pool_args := args; pool_keyargs := keyargs; con := None |}.

(** The pool object together with the world it acts on. *)
Record state `{Driver} := {
  pool : t;
  outside : env
}.

Definition set_con `{Driver} (c : option handle) : M state unit :=
  fun s =>
    (Ok tt,
     {| pool := {| pool_args := pool_args (pool s);
                   pool_keyargs := pool_keyargs (pool s);
                   con := c |};
        outside := outside s |}).

Definition get_pool `{Driver} : M state t :=
  fun s => (Ok (pool s), s).

Definition lift `{Driver} {A} (m : M env A) : M state A :=
  fun s =>
    let (r, e') := m (outside s) in
    (r, {| pool := pool s; outside := e' |}).

(** [c is pool.con] *)
Definition is_con (c : handle) (held : option handle) : bool :=
  match held with
  | Some h => Nat.eqb c h
  | None => false
  end.

Definition connect `{Driver} : M state handle :=
  p <~ get_pool ;;
  match con p with
  | None =>
      h <~ lift (driver_call CallConnect
                   (pgdb_connect (pool_args p) (pool_keyargs p))) ;;
      _ <~ set_con (Some h) ;;
      ret h
  | Some h => ret h
  end.

Definition close `{Driver} (c : handle) : M state unit :=
  p <~ get_pool ;;
  _ <~ assert_ (is_con c (con p)) ;;
  _ <~ set_con None ;;
  lift (driver_call (CallClose c) (con_close c)).

Definition release `{Driver} (c : handle) : M state unit :=
  p <~ get_pool ;;
  _ <~ assert_ (is_con c (con p)) ;;
  try_except
    (lift (driver_call (CallRollback c) (con_rollback c)))
    (fun e => _ <~ close c ;; raise e).

End Pool.

(** ** A scripted driver

    One session; whether each kind of call fails, and how, is fixed in
    the world. A failed CREATE aborts the transaction and a successful
    rollback ends it, as PostgreSQL does. *)

Module Sim.

Record sim_world := {
  next_handle : handle;
  aborted : bool;
  connect_fails : option exn;
  rollback_fails : option exn;
  close_fails : option exn;
  create_fails : option exn
}.

Definition set_aborted (b : bool) (w : sim_world) : sim_world :=
  {| next_handle := next_handle w; aborted := b;
     connect_fails := connect_fails w; rollback_fails := rollback_fails w;
     close_fails := close_fails w; create_fails := create_fails w |}.

Definition sim_connect (_ : list pyval) (_ : gmap string pyval)
    (w : sim_world) : result handle * sim_world :=
  match connect_fails w with
  | Some e => (Raise e, w)
  | None =>
      (Ok (next_handle w),
       {| next_handle := S (next_handle w); aborted := false;
          connect_fails := connect_fails w; rollback_fails := rollback_fails w;
          close_fails := close_fails w; create_fails := create_fails w |})
  end.

Definition sim_rollback (_ : handle) (w : sim_world) : result unit * sim_world :=
  match rollback_fails w with
  | Some e => (Raise e, w)
  | None => (Ok tt, set_aborted false w)
  end.

Definition sim_close (_ : handle) (w : sim_world) : result unit * sim_world :=
  match close_fails w with
  | Some e => (Raise e, w)
  | None => (Ok tt, w)
  end.

Definition sim_create (_ : handle) (w : sim_world) : result unit * sim_world :=
  match create_fails w with
  | Some e => (Raise e, set_aborted true w)
  | None => (Ok tt, w)
  end.

#[global] Instance driver : Driver := {|
  world := sim_world;
  pgdb_connect := sim_connect;
  con_rollback := sim_rollback;
  con_close := sim_close;
  Table_create := sim_create;
  wrap_dbapi_exn := fun e => e;
  in_failed_transaction := fun w _ => aborted w
|}.

(** A world in which nothing fails. *)
Definition calm : sim_world :=
  {| next_handle := 7%nat; aborted := false;
     connect_fails := None; rollback_fails := None;
     close_fails := None; create_fails := None |}.

End Sim.

(** ** Shapes of byte strings used in the statements *)

(** [l] starts with [n] octal digits. *)
Fixpoint starts_oct (n : nat) (l : list byte) : bool :=
  match n with
  | O => true
  | S n' =>
      match l with
      | c :: r => is_octal_digit c && starts_oct n' r
      | [] => false
      end
  end.

(** [b] contains a backslash followed by three octal digits. *)
Fixpoint has_bs_octal (b : list byte) : bool :=
  match b with
  | [] => false
  | c :: t => (byte_eqb c backslash && starts_oct 3 t) || has_bs_octal t
  end.

(** [binascii.hexlify]: two lower-case hexadecimal digits per byte. *)
Definition hex_digit (d : Z) : byte :=
  match Byte.of_N (Z.to_N (if d <? 10 then 48 + d else 87 + d)) with
  | Some c => c
  | None => "0"%byte
  end.

Definition hexlify (b : list byte) : list byte :=
  concat (map (fun c => [hex_digit (ord c / 16); hex_digit (ord c mod 16)]) b).

(** ** Vocabulary of the statements *)

(** The test of the handler: a DatabaseError whose message contains
    the words. *)
Definition already_exists (e : exn) : bool :=
  is_DatabaseError e && contains "already exists" (message e).



(** The pool with its handle cleared. *)
Definition cleared (p : Pool.t) : Pool.t :=
  {| Pool.pool_args := Pool.pool_args p;
     Pool.pool_keyargs := Pool.pool_keyargs p;
     Pool.con := None |}.

(** The three shapes of an entry of the table, checked entry by entry. *)
Definition entry_ok (c : byte) : bool :=
  match Codec.char2oct c with
  | [a] => byte_eqb a c && negb (byte_eqb c backslash)
  | [a; b] => byte_eqb c backslash && byte_eqb a backslash && byte_eqb b backslash
  | [a; d1; d2; d3] =>
      byte_eqb a backslash && negb (byte_eqb c backslash)
      && is_octal_digit d1 && is_octal_digit d2 && is_octal_digit d3
      && negb (is_octal_digit c)
      && match chr (64 * octal_value d1 + 8 * octal_value d2 + octal_value d3) with
         | Ok c' => byte_eqb c' c
         | Raise _ => false
         end
  | _ => false
  end.

(** The same three shapes, as the proofs use them. *)
Inductive entry_shape (c : byte) : Prop :=
| shape_plain :
    Codec.char2oct c = [c] -> byte_eqb c backslash = false -> entry_shape c
| shape_backslash :
    c = backslash -> Codec.char2oct c = [backslash; backslash] -> entry_shape c
| shape_escape d1 d2 d3 :
    Codec.char2oct c = [backslash; d1; d2; d3] ->
    is_octal_digit d1 = true -> is_octal_digit d2 = true ->
    is_octal_digit d3 = true ->
    is_octal_digit c = false ->
    chr (64 * octal_value d1 + 8 * octal_value d2 + octal_value d3) = Ok c ->
    entry_shape c.

(** A byte, written as two hexadecimal digits, reads back as itself. *)
Definition hex_pair_ok (c : byte) : bool :=
  match Codec.hex_value (hex_digit (ord c / 16)),
        Codec.hex_value (hex_digit (ord c mod 16)) with
  | Some a, Some b =>
      match chr (16 * a + b) with
      | Ok c' => byte_eqb c' c
      | Raise _ => false
      end
  | _, _ => false
  end.

Definition Decimal_of_int (n : Z) : Decimal :=
  {| coefficient := n; exponent := 0 |}.

(** ** Concrete attributes, converters and worlds *)

(** A Decimal attribute declared with [min=5, max=10]. *)
Definition bounded_5_10 : Attr :=
  {| py_type := TDecimal; args := [];
     keyargs := <["min" := VInt 5]> (<["max" := VInt 10]> ∅) |}.

(** A Decimal attribute declared with precision 3 and scale 5. *)
Definition decimal_3_5 : Attr :=
  {| py_type := TDecimal; args := [VInt 3; VInt 5]; keyargs := ∅ |}.

(** A [decimal] module that parses no text at all. *)
Definition no_decimal_text : decimal_lib :=
  {| Decimal_of_text := fun _ => None;
     lt_mixed := fun _ _ => false;
     gt_mixed := fun _ _ => false |}.

Definition date_2020_01_05 : date := {| year := 2020; month := 1; day := 5 |}.

(** An Integer converter with the given bounds. *)
Definition int_bounds (mn mx : option Z) : IntConverter.t :=
  {| IntConverter.attr := None;
     IntConverter.min_val := Some mn;
     IntConverter.max_val := Some mx |}.

Definition int_attr (kw : gmap string pyval) : Attr :=
  {| py_type := TInt; args := []; keyargs := kw |}.

Definition unicode_attr : Attr :=
  {| py_type := TUnicode; args := []; keyargs := ∅ |}.

Definition relation_exists : exn :=
  DBException KProgrammingError "relation person already exists".

Definition connection_lost : exn :=
  DBException KOperationalError "server closed the connection unexpectedly".

Definition sim_env (w : Sim.sim_world) : env := {| db := w; calls := [] |}.

(** The table exists and the connection is lost before the rollback. *)
Definition exists_then_lost : Sim.sim_world :=
  {| Sim.next_handle := 8%nat; Sim.aborted := false;
     Sim.connect_fails := None; Sim.rollback_fails := Some connection_lost;
     Sim.close_fails := None; Sim.create_fails := Some relation_exists |}.

(** The table exists and the rollback goes through. *)
Definition exists_only : Sim.sim_world :=
  {| Sim.next_handle := 8%nat; Sim.aborted := false;
     Sim.connect_fails := None; Sim.rollback_fails := None;
     Sim.close_fails := None; Sim.create_fails := Some relation_exists |}.

Definition sim_state (held : option handle) (w : Sim.sim_world) : Pool.state :=
  {| Pool.pool := {| Pool.pool_args := []; Pool.pool_keyargs := ∅;
                     Pool.con := held |};
     Pool.outside := sim_env w |}.

Definition close_failed : exn :=
  DBException KOperationalError "connection already closed".

(** Rollback and close both fail. *)
Definition lost_and_stuck : Sim.sim_world :=
  {| Sim.next_handle := 8%nat; Sim.aborted := true;
     Sim.connect_fails := None; Sim.rollback_fails := Some connection_lost;
     Sim.close_fails := Some close_failed; Sim.create_fails := None |}.

(** Rollback fails, close works. *)
Definition lost : Sim.sim_world :=
  {| Sim.next_handle := 8%nat; Sim.aborted := true;
     Sim.connect_fails := None; Sim.rollback_fails := Some connection_lost;
     Sim.close_fails := None; Sim.create_fails := None |}.

(** ** The remaining converters and the registry *)

(** [init] of BoolConverter, BlobConverter, DatetimeConverter and
    DateConverter (lines 130-132, 328-330, 346-348, 359-361): the four
    bodies are the same, positional arguments are refused and no option
    is consumed. These converters have no fields of their own. *)
Definition plain_init (a : Attr) (converter : unit)
    (keyargs : gmap string pyval) : result (unit * gmap string pyval) :=
  match args a with
  | [] => Ok (converter, keyargs)
  | _ => unexpected_args
  end.

Definition plain_new (a : option Attr) : result unit :=
  Converter_init plain_init tt a.

(** BlobConverter.validate (lines 331-334) *)
Definition BlobConverter_validate (val : pyval) : result pyval :=
  match val with
  | VBuffer _ => Ok val
  | VStr s => Ok (VBuffer s)
  | _ => Raise TypeError
  end.

(** DatetimeConverter.validate (lines 349-352) *)
Definition DatetimeConverter_validate (val : pyval) : result pyval :=
  match val with
  | VDatetime _ => Ok val
  | _ => Raise TypeError
  end.

(** StrConverter.__init__ and StrConverter.init (lines 185-190) *)
Module StrConverter.

Record t := {
  base : BasestringConverter.t;   (* the fields of BasestringConverter *)
  encoding : pyval
}.

(** The instance before [Converter.__init__] runs: [encoding] is
    ['ascii']. *)
Definition fresh (a : option Attr) : t :=
  {| base := BasestringConverter.fresh a;
     encoding := VStr ["a"; "s"; "c"; "i"; "i"]%byte |}.

Definition init (a : Attr) (converter : t) (keyargs : gmap string pyval)
  : result (t * gmap string pyval) :=
  r <- BasestringConverter.init a (base converter) keyargs ;;
  let (enc, keyargs') :=
    pop "encoding" (VStr ["l"; "a"; "t"; "i"; "n"; "1"]%byte) r.2 in
  Ok ({| base := r.1; encoding := enc |}, keyargs').

Definition new (a : option Attr) : result t :=
  Converter_init init (fresh a) a.

End StrConverter.

(** *** The registry (lines 94-108) *)

(** A class given as [py_type]: one of the classes of [pytype], or a
    class unrelated to all of them. *)
Inductive pyclass :=
| Known (t : pytype)
| Unrelated.

Definition pytype_eqb (a b : pytype) : bool :=
  match a, b with
  | TBool, TBool | TUnicode, TUnicode | TStr, TStr | TLong, TLong
  | TInt, TInt | TFloat, TFloat | TDecimal, TDecimal | TBuffer, TBuffer
  | TDatetime, TDatetime | TDate, TDate | TLongStr, TLongStr
  | TLongUnicode, TLongUnicode => true
  | _, _ => false
  end.

(** Modelled from the spec: the large-text types of [pony.clobtypes]
    (defined outside this module) are kinds of text served by the text
    converters, that is, [LongStr] is a subclass of [str] and
    [LongUnicode] of [unicode]. The rest is Python's own hierarchy:
    [bool] is a subclass of [int], [datetime] of [date]. *)
Definition issubclass (c : pyclass) (base : pytype) : bool :=
  match c with
  | Unrelated => false
  | Known t =>
      match t, base with
      | TBool, TInt => true
      | TDatetime, TDate => true
      | TLongStr, TStr => true
      | TLongUnicode, TUnicode => true
      | _, _ => pytype_eqb t base
      end
  end.

Inductive converter_class :=
| BoolConverter_cls | UnicodeConverter_cls | StrConverter_cls
| LongConverter_cls | IntConverter_cls | RealConverter_cls
| DecimalConverter_cls | BlobConverter_cls | DatetimeConverter_cls
| DateConverter_cls.

Definition _get_converter_type_by_py_type (py_type : pyclass)
  : result converter_class :=
  if issubclass py_type TBool then Ok BoolConverter_cls
  else if issubclass py_type TUnicode then Ok UnicodeConverter_cls
  else if issubclass py_type TStr then Ok StrConverter_cls
  else if issubclass py_type TLong then Ok LongConverter_cls
  else if issubclass py_type TInt then Ok IntConverter_cls
  else if issubclass py_type TFloat then Ok RealConverter_cls
  else if issubclass py_type TDecimal then Ok DecimalConverter_cls
  else if issubclass py_type TBuffer then Ok BlobConverter_cls
  else if issubclass py_type TDatetime then Ok DatetimeConverter_cls
  else if issubclass py_type TDate then Ok DateConverter_cls
  else Raise TypeError.

(** The class each converter is registered for. *)
Definition registered_for (k : converter_class) : pytype :=
  match k with
  | BoolConverter_cls => TBool
  | UnicodeConverter_cls => TUnicode
  | StrConverter_cls => TStr
  | LongConverter_cls => TLong
  | IntConverter_cls => TInt
  | RealConverter_cls => TFloat
  | DecimalConverter_cls => TDecimal
  | BlobConverter_cls => TBuffer
  | DatetimeConverter_cls => TDatetime
  | DateConverter_cls => TDate
  end.

(** ** More vocabulary *)

(** A printable ASCII byte, 32 to 126. *)
Definition printable (c : byte) : bool := (31 <? ord c) && (ord c <? 127).

(** The text of a TIMESTAMP at midnight, [YYYY-MM-DD 00:00:00]. *)
Definition midnight_literal (d : date) : list byte :=
  date_literal d ++ [" "; "0"; "0"; ":"; "0"; "0"; ":"; "0"; "0"]%byte.

(** A unicode attribute declared with length 0. *)
Definition unicode_len0_attr : Attr :=
  {| py_type := TUnicode; args := [VInt 0]; keyargs := ∅ |}.

(** A unicode attribute of length 40 with a [db_encoding]. *)
Definition unicode_koi8_attr : Attr :=
  {| py_type := TUnicode; args := [VInt 40];
     keyargs := <["db_encoding" := VStr ["k"; "o"; "i"; "8"]%byte]> ∅ |}.

(** A str attribute with both of its options. *)
Definition str_koi8_attr : Attr :=
  {| py_type := TStr; args := [];
     keyargs := <["encoding" := VStr ["k"; "o"; "i"; "8"]%byte]>
                  (<["db_encoding" := VStr ["u"; "t"; "f"; "8"]%byte]> ∅) |}.

(** An attribute of a large-text type, without options. *)
Definition longstr_attr : Attr :=
  {| py_type := TLongStr; args := []; keyargs := ∅ |}.

(** A Decimal attribute without options. *)
Definition decimal_plain : Attr :=
  {| py_type := TDecimal; args := []; keyargs := ∅ |}.

(** The converter [DecimalConverter.new] builds from it. *)
Definition decimal_plain_converter : DecimalConverter.t :=
  {| DecimalConverter.attr := Some decimal_plain;
     DecimalConverter.precision := Some 12;
     DecimalConverter.scale := Some 2;
     DecimalConverter.exp := Some {| coefficient := 1; exponent := -2 |};
     DecimalConverter.min_val := Some None;
     DecimalConverter.max_val := Some None |}.

(** A datetime on 2020-01-05. *)
Definition datetime_2020_01_05_1330 : datetime :=
  {| dt_year := 2020; dt_month := 1; dt_day := 5;
     hour := 13; minute := 30; second := 0; microsecond := 0 |}.

(** [hay] is [pre ++ needle ++ post] for some [pre] and [post]. *)
Definition occurs_in (needle hay : string) : Prop :=
  exists pre post, hay = (pre ++ needle ++ post)%string.

(** * Properties *)

(** ** The binary codec *)

Section CodecFacts.

Import Codec BlobConverter.

Lemma entry_ok_all c : entry_ok c = true.
Proof. destruct c; vm_compute; reflexivity. Qed.

Lemma byte_eqb_eq a b : byte_eqb a b = true <-> a = b.
Proof.
  unfold byte_eqb. split.
  - intros E. apply Byte.byte_dec_bl. exact E.
  - intros ->. apply Byte.byte_dec_lb. reflexivity.
Qed.

Lemma octal_not_backslash c : is_octal_digit c = true -> byte_eqb c backslash = false.
Proof. destruct c; vm_compute; congruence. Qed.

Lemma entry_shape_all c : entry_shape c.
Proof.
  pose proof (entry_ok_all c) as E. unfold entry_ok in E.
  destruct (char2oct c) as [|a [|b [|d2 [|d3 [|x l]]]]] eqn:Ec; try discriminate.
  - apply andb_prop in E as [E1 E2]. apply byte_eqb_eq in E1. subst a.
    apply shape_plain; [exact Ec|]. now apply negb_true_iff.
  - apply andb_prop in E as [E1 E3]. apply andb_prop in E1 as [E1 E2].
    apply byte_eqb_eq in E1, E2, E3. subst.
    apply shape_backslash; [reflexivity | exact Ec].
  - repeat match type of E with
           | (_ && _) = true => let E' := fresh "E" in apply andb_prop in E as [E E']
           end.
    apply byte_eqb_eq in E. subst a.
    destruct (chr _) as [c'|] eqn:Hc; [|discriminate].
    match goal with H : byte_eqb c' c = true |- _ => apply byte_eqb_eq in H; subst c' end.
    eapply shape_escape; eauto. now apply negb_true_iff.
Qed.

Lemma py2sql_cons c b : py2sql (c :: b) = char2oct c ++ py2sql b.
Proof. reflexivity. Qed.

Lemma replace_bs_plain c s :
  byte_eqb c backslash = false -> replace_bs (c :: s) = c :: replace_bs s.
Proof. intros E. destruct s; simpl; rewrite ?E; reflexivity. Qed.

Lemma replace_bs_pair s :
  replace_bs (backslash :: backslash :: s) = backslash :: replace_bs s.
Proof. reflexivity. Qed.

Lemma replace_bs_escape d s :
  byte_eqb d backslash = false ->
  replace_bs (backslash :: d :: s) = backslash :: replace_bs (d :: s).
Proof.
  intros E. cbn [replace_bs]. rewrite E.
  replace (byte_eqb backslash backslash) with true by reflexivity.
  reflexivity.
Qed.

Lemma oct_re_sub_copy c s :
  byte_eqb c backslash && starts_oct 3 s = false ->
  oct_re_sub (c :: s) = (t' <- oct_re_sub s ;; Ok (c :: t')).
Proof.
  intros E. destruct s as [|c1 [|c2 [|c3 r]]]; try reflexivity.
  cbn [oct_re_sub]. cbn [starts_oct] in E.
  rewrite andb_true_r in E. rewrite <- !andb_assoc. rewrite E. reflexivity.
Qed.

Lemma oct_re_sub_match d1 d2 d3 s :
  is_octal_digit d1 = true -> is_octal_digit d2 = true ->
  is_octal_digit d3 = true ->
  oct_re_sub (backslash :: d1 :: d2 :: d3 :: s)
  = (c <- chr (64 * octal_value d1 + 8 * octal_value d2 + octal_value d3) ;;
     r' <- oct_re_sub s ;; Ok (c :: r')).
Proof.
  intros E1 E2 E3. cbn [oct_re_sub]. rewrite E1, E2, E3. reflexivity.
Qed.

(** What the text looks like once doubled backslashes are collapsed:
    it keeps the first byte of the data when that byte is copied, and
    starts with a backslash otherwise. *)
Lemma collapsed_head c b :
  (byte_eqb c backslash = false
   /\ replace_bs (py2sql (c :: b)) = c :: replace_bs (py2sql b))
  \/ (is_octal_digit c = false
      /\ exists t, replace_bs (py2sql (c :: b)) = backslash :: t).
Proof.
  rewrite py2sql_cons.
  destruct (entry_shape_all c) as [Ec Hc | -> Ec | d1 d2 d3 Ec H1 H2 H3 Hc Hchr];
    rewrite Ec; cbn [app].
  - left. split; [exact Hc|]. now apply replace_bs_plain.
  - right. split; [reflexivity|]. eexists. apply replace_bs_pair.
  - right. split; [exact Hc|]. eexists. apply replace_bs_escape.
    now apply octal_not_backslash.
Qed.

Lemma starts_oct_collapsed n b :
  starts_oct n (replace_bs (py2sql b)) = true -> starts_oct n b = true.
Proof.
  revert b. induction n as [|n IH]; intros b H; [reflexivity|].
  destruct b as [|c b]; [discriminate H|].
  destruct (collapsed_head c b) as [[Hc E] | [Hc [t E]]]; rewrite E in H;
    cbn [starts_oct] in *.
  - apply andb_prop in H as [H1 H2]. rewrite H1. cbn. now apply IH.
  - discriminate H.
Qed.

Lemma decode_encode_escape_free b :
  has_bs_octal b = false ->
  oct_re_sub (replace_bs (py2sql b)) = Ok b.
Proof.
  induction b as [|c b IH]; intros H; [reflexivity|].
  cbn [has_bs_octal] in H. apply orb_false_elim in H as [Hhead Htail].
  specialize (IH Htail).
  rewrite py2sql_cons.
  destruct (entry_shape_all c) as [Ec Hc | -> Ec | d1 d2 d3 Ec H1 H2 H3 Hc Hchr];
    rewrite Ec; cbn [app].
  - rewrite replace_bs_plain by exact Hc.
    rewrite oct_re_sub_copy by (rewrite Hc; reflexivity).
    rewrite IH. reflexivity.
  - rewrite replace_bs_pair.
    rewrite oct_re_sub_copy.
    + rewrite IH. reflexivity.
    + replace (byte_eqb backslash backslash) with true in * by reflexivity.
      cbn [andb] in *.
      destruct (starts_oct 3 (replace_bs (py2sql b))) eqn:E; [|reflexivity].
      apply starts_oct_collapsed in E. congruence.
  - rewrite replace_bs_escape by now apply octal_not_backslash.
    rewrite !replace_bs_plain by now apply octal_not_backslash.
    rewrite oct_re_sub_match by assumption.
    rewrite Hchr. cbn [rbind]. rewrite IH. reflexivity.
Qed.

Lemma py2sql_not_hex_form b : startswith_bs_x (py2sql b) = false.
Proof.
  destruct b as [|c b]; [reflexivity|].
  rewrite py2sql_cons.
  destruct (entry_shape_all c) as [Ec Hc | -> Ec | d1 d2 d3 Ec H1 H2 H3 Hc Hchr];
    rewrite Ec; cbn [app].
  - destruct (py2sql b); cbn; [reflexivity|]. rewrite Hc. reflexivity.
  - reflexivity.
  - cbn. destruct d1; try reflexivity; discriminate H1.
Qed.

(** The round trip holds for every byte string in which no backslash
    is followed by three octal digits. *)
Lemma blob_roundtrip_escape_free b :
  has_bs_octal b = false -> sql2py (py2sql b) = Ok b.
Proof.
  intros H. unfold sql2py. rewrite py2sql_not_hex_form.
  now apply decode_encode_escape_free.
Qed.

(** Every single byte, all 256 of them, survives the round trip. *)
Lemma blob_roundtrip_single c : sql2py (py2sql [c]) = Ok [c].
Proof.
  apply blob_roundtrip_escape_free. cbn. now rewrite andb_false_r.
Qed.

(** Runs of backslashes survive it too. *)
Lemma blob_roundtrip_backslashes n :
  sql2py (py2sql (repeat backslash n)) = Ok (repeat backslash n).
Proof.
  apply blob_roundtrip_escape_free.
  induction n as [|n IH]; [reflexivity|].
  cbn [repeat has_bs_octal]. rewrite IH, orb_false_r.
  destruct n as [|n]; [reflexivity|]. reflexivity.
Qed.

End CodecFacts.

Section HexForm.

Import Codec BlobConverter.

Lemma hex_pair_ok_all c : hex_pair_ok c = true.
Proof. destruct c; vm_compute; reflexivity. Qed.

Lemma unhexlify_hexlify b : unhexlify (hexlify b) = Ok b.
Proof.
  induction b as [|c b IH]; [reflexivity|].
  unfold hexlify in *. cbn [map concat app unhexlify].
  pose proof (hex_pair_ok_all c) as E. unfold hex_pair_ok in E.
  destruct (hex_value (hex_digit (ord c / 16))) as [a1|]; [|discriminate].
  destruct (hex_value (hex_digit (ord c mod 16))) as [a2|]; [|discriminate].
  destruct (chr (16 * a1 + a2)) as [c'|]; [|discriminate].
  apply byte_eqb_eq in E. subst c'. cbn [rbind]. rewrite IH. reflexivity.
Qed.

(** The hex form of any byte string decodes to it. *)
Lemma blob_decode_hex_form b :
  sql2py (backslash :: "x"%byte :: hexlify b) = Ok b.
Proof. unfold sql2py. cbn. apply unhexlify_hexlify. Qed.

End HexForm.

(** C1: decoding the encoding of a byte string returns that byte
    string. The code breaks this on the four bytes backslash, 1, 0, 1:
    their encoding is two backslashes followed by 101, which the decoder
    first collapses to one backslash followed by 101 and then reads as
    the octal escape of the single byte A; on backslash, 7, 7, 7 the
    decoder raises ValueError. *)
Theorem C1_blob_roundtrip_breaks :
  let b := ["\"; "1"; "0"; "1"]%byte in
  BlobConverter.py2sql b = ["\"; "\"; "1"; "0"; "1"]%byte
  /\ BlobConverter.sql2py (BlobConverter.py2sql b) = Ok ["A"%byte]
  /\ BlobConverter.sql2py (BlobConverter.py2sql b) <> Ok b
  /\ BlobConverter.sql2py (BlobConverter.py2sql ["\"; "7"; "7"; "7"]%byte)
     = Raise ValueError.
Proof.
  cbv zeta. repeat split; try (vm_compute; reflexivity).
  vm_compute. discriminate.
Qed.

(** ** DecimalConverter *)

Section DecimalFacts.

Import DecimalConverter.

Variable L : decimal_lib.

Lemma validate_returns_early val :
  validate_stmt1 val >> validate_stmt2 L val <> Next.
Proof.
  unfold validate_stmt1, validate_stmt2, Decimal_new.
  destruct val; cbn; try discriminate;
    try (destruct (Decimal_of_text L _); cbn; discriminate).
Qed.

(** The two bound checks are never reached: the result is that of the
    first two statements alone. *)
Lemma validate_ignores_bounds converter val :
  validate L converter val
  = run_body (validate_stmt1 val >> validate_stmt2 L val).
Proof.
  unfold validate. pose proof (validate_returns_early val) as H.
  destruct (validate_stmt1 val); cbn in *; try reflexivity.
  destruct (validate_stmt2 L val); cbn in *; try reflexivity.
  congruence.
Qed.

Lemma validate_never_range_error converter val :
  validate L converter val <> Raise ValueError.
Proof.
  rewrite validate_ignores_bounds.
  unfold validate_stmt1, validate_stmt2, Decimal_new.
  destruct val; cbn; try discriminate;
    destruct (Decimal_of_text L _); cbn; discriminate.
Qed.

End DecimalFacts.

(** C2: a Decimal converter with bounds rejects, with a range error,
    every value that converts to a decimal below [min] or above [max].
    The code does not: the converter built from [min=5, max=10] returns
    3 and 30 as valid, because [validate] returns from inside its [try]
    before the two bound checks. *)
Theorem C2_decimal_bounds_not_enforced (L : decimal_lib) :
  exists converter,
    DecimalConverter.new L (Some bounded_5_10) = Ok converter
    /\ DecimalConverter.min_val converter = Some (Some (Decimal_of_int 5))
    /\ DecimalConverter.max_val converter = Some (Some (Decimal_of_int 10))
    /\ Decimal_ltb (Decimal_of_int 3) (Decimal_of_int 5) = true
    /\ DecimalConverter.validate L converter (VInt 3)
       = Ok (VDecimal (Decimal_of_int 3))
    /\ Decimal_ltb (Decimal_of_int 10) (Decimal_of_int 30) = true
    /\ DecimalConverter.validate L converter (VDecimal (Decimal_of_int 30))
       = Ok (VDecimal (Decimal_of_int 30)).
Proof.
  eexists. split; [vm_compute; reflexivity|].
  repeat split.
Qed.

(** ** DateConverter *)

Section DateFacts.

Lemma ord_digit_char k : 0 <= k < 10 -> ord (digit_char k) = 48 + k.
Proof.
  intros Hk.
  assert (k = 0 \/ k = 1 \/ k = 2 \/ k = 3 \/ k = 4 \/ k = 5 \/ k = 6
          \/ k = 7 \/ k = 8 \/ k = 9) as Hc by lia.
  repeat (destruct Hc as [-> | Hc]; [reflexivity|]). subst k. reflexivity.
Qed.

Lemma re_Y_digits {A} y r (k : Z -> list Z -> option A) :
  0 <= y <= 9999 ->
  re_Y (48 + y / 1000 :: 48 + y / 100 mod 10 :: 48 + y / 10 mod 10
        :: 48 + y mod 10 :: r) k
  = k y r.
Proof.
  intros Hy. unfold re_Y, in_range, digit_val.
  assert (0 <= y / 1000 < 10) by (split; [apply Z.div_pos | apply Z.div_lt_upper_bound]; lia).
  pose proof (Z.mod_pos_bound (y / 100) 10 ltac:(lia)).
  pose proof (Z.mod_pos_bound (y / 10) 10 ltac:(lia)).
  pose proof (Z.mod_pos_bound y 10 ltac:(lia)).
  repeat match goal with
         | |- context [?a <=? ?b] =>
             replace (a <=? b) with true by (symmetry; apply Z.leb_le; lia)
         end.
  cbn [andb]. f_equal. Z.div_mod_to_equations. lia.
Qed.

Lemma re_m_digits {A} m r (k : Z -> list Z -> option A) x :
  1 <= m <= 12 -> k m r = Some x ->
  re_m (48 + m / 10 :: 48 + m mod 10 :: r) k = Some x.
Proof.
  intros Hm Hk.
  assert (m = 1 \/ m = 2 \/ m = 3 \/ m = 4 \/ m = 5 \/ m = 6 \/ m = 7
          \/ m = 8 \/ m = 9 \/ m = 10 \/ m = 11 \/ m = 12) as Hc by lia.
  repeat (destruct Hc as [-> | Hc];
          [cbv; cbv in Hk; rewrite Hk; reflexivity|]).
  subst m. cbv; cbv in Hk; rewrite Hk; reflexivity.
Qed.

Lemma re_d_digits {A} d r (k : Z -> list Z -> option A) x :
  1 <= d <= 31 -> k d r = Some x ->
  re_d (48 + d / 10 :: 48 + d mod 10 :: r) k = Some x.
Proof.
  intros Hd Hk.
  assert (exists n, d = Z.of_nat n /\ (1 <= n <= 31)%nat) as [n [-> Hn]]
    by (exists (Z.to_nat d); lia).
  do 32 (destruct n as [|n];
         [first [ lia | cbv; cbv in Hk; rewrite Hk; reflexivity ]|]).
  lia.
Qed.

Lemma valid_ymd_bounds y m d :
  valid_ymd y m d = true -> 1 <= y <= 9999 /\ 1 <= m <= 12 /\ 1 <= d <= 31.
Proof.
  unfold valid_ymd, days_in_month. intros H.
  repeat match type of H with
         | (_ && _) = true => let H' := fresh "H" in apply andb_prop in H as [H H']
         end.
  repeat match goal with
         | H : (_ <=? _) = true |- _ => apply Z.leb_le in H
         end.
  repeat match goal with
         | H : context [if ?b then _ else _] |- _ => destruct b
         end; lia.
Qed.

Lemma map_ord_date_literal d :
  valid_date d = true ->
  map ord (date_literal d)
  = 48 + year d / 1000 :: 48 + year d / 100 mod 10 :: 48 + year d / 10 mod 10
    :: 48 + year d mod 10 :: 45
    :: 48 + month d / 10 :: 48 + month d mod 10 :: 45
    :: 48 + day d / 10 :: 48 + day d mod 10 :: [].
Proof.
  intros H. apply valid_ymd_bounds in H as (Hy & Hm & Hd).
  unfold date_literal. cbn [map].
  rewrite !ord_digit_char; try reflexivity;
    try (apply Z.mod_pos_bound; lia);
    (split; [apply Z.div_pos | apply Z.div_lt_upper_bound]; lia).
Qed.

Lemma strptime_date_literal d :
  valid_date d = true ->
  strptime_Ymd (map ord (date_literal d))
  = Ok {| dt_year := year d; dt_month := month d; dt_day := day d;
          hour := 0; minute := 0; second := 0; microsecond := 0 |}.
Proof.
  intros H. rewrite map_ord_date_literal by exact H.
  pose proof (valid_ymd_bounds _ _ _ H) as (Hy & Hm & Hd).
  unfold strptime_Ymd, format_regex_match.
  rewrite re_Y_digits by lia. cbn [re_lit]. rewrite Z.eqb_refl.
  erewrite re_m_digits; [| exact Hm |].
  2:{ cbn [re_lit]. rewrite Z.eqb_refl.
      apply re_d_digits; [exact Hd | reflexivity]. }
  cbn. unfold datetime_new. unfold valid_date in H. rewrite H. reflexivity.
Qed.

Lemma strptime_argument_date_literal d :
  valid_date d = true ->
  DateConverter.strptime_argument (VStr (date_literal d))
  = Ok (map ord (date_literal d)).
Proof.
  intros H. unfold DateConverter.strptime_argument.
  rewrite map_ord_date_literal by exact H.
  apply valid_ymd_bounds in H as (Hy & Hm & Hd). cbn [existsb].
  repeat match goal with
         | |- context [0 =? ?x] =>
             replace (0 =? x) with false
               by (symmetry; apply Z.eqb_neq; Z.div_mod_to_equations; lia)
         end.
  reflexivity.
Qed.

End DateFacts.

(** C3, as stated, at 2020-01-05: feeding what [py2sql] returns to
    [sql2py] does not give the date back, it raises TypeError, because
    [py2sql] returns a datetime object and [sql2py] parses text. *)
Lemma C3_direct_composition_fails :
  (v <- DateConverter.py2sql (VDate date_2020_01_05) ;; DateConverter.sql2py v)
  = Raise TypeError
  /\ (v <- DateConverter.py2sql (VDate date_2020_01_05) ;; DateConverter.sql2py v)
     <> Ok (VDate date_2020_01_05).
Proof. split; [reflexivity | discriminate]. Qed.

(** C3, amended: [validate] maps every datetime to its date component;
    for every date [d], [py2sql] returns the datetime at midnight of [d],
    whose date component is [d], and [sql2py] maps the [YYYY-MM-DD]
    text of [d] back to [d]. *)
Theorem C3_date_converter (t : datetime) (d : date) :
  valid_date d = true ->
  DateConverter.validate (VDatetime t) = Ok (VDate (datetime_date t))
  /\ DateConverter.py2sql (VDate d)
     = Ok (VDatetime {| dt_year := year d; dt_month := month d; dt_day := day d;
                        hour := 0; minute := 0; second := 0; microsecond := 0 |})
  /\ (forall t', DateConverter.py2sql (VDate d) = Ok (VDatetime t') ->
                 datetime_date t' = d)
  /\ DateConverter.sql2py (VStr (date_literal d)) = Ok (VDate d).
Proof.
  intros H. split; [reflexivity|].
  assert (DateConverter.py2sql (VDate d)
          = Ok (VDatetime {| dt_year := year d; dt_month := month d;
                             dt_day := day d; hour := 0; minute := 0;
                             second := 0; microsecond := 0 |})) as E.
  { unfold DateConverter.py2sql, datetime_new. unfold valid_date in H.
    rewrite H. reflexivity. }
  split; [exact E|]. split.
  - intros t' E'. rewrite E in E'. injection E' as <-. destruct d; reflexivity.
  - unfold DateConverter.sql2py.
    rewrite strptime_argument_date_literal by exact H. cbn [rbind].
    rewrite strptime_date_literal by exact H.
    cbn. destruct d; reflexivity.
Qed.

Lemma C3_date_converter_witness :
  valid_date date_2020_01_05 = true
  /\ DateConverter.sql2py (VStr (date_literal date_2020_01_05))
     = Ok (VDate date_2020_01_05).
Proof.
  split; [reflexivity|].
  apply (C3_date_converter
           {| dt_year := 2020; dt_month := 1; dt_day := 5;
              hour := 13; minute := 30; second := 0; microsecond := 0 |}
           date_2020_01_05).
  reflexivity.
Defined.

(** ** IntConverter *)

(** The converter with [min=5, max=3] can be constructed. *)
Lemma int_new_bounds :
  IntConverter.new (Some (int_attr (<["min" := VInt 5]> (<["max" := VInt 3]> ∅))))
  = Ok {| IntConverter.attr := Some (int_attr (<["min" := VInt 5]> (<["max" := VInt 3]> ∅)));
          IntConverter.min_val := Some (Some 5);
          IntConverter.max_val := Some (Some 3) |}.
Proof. vm_compute. reflexivity. Qed.

(** A bound of 0 is treated as no bound. *)
Lemma int_validate_zero_bound_ignored :
  IntConverter.validate (int_bounds (Some 0) None) (VInt (-1)) = Ok (VInt (-1))
  /\ IntConverter.validate (int_bounds None (Some 0)) (VInt 1) = Ok (VInt 1).
Proof. split; reflexivity. Qed.

Lemma and_lt_false_iff bound val :
  and_lt bound val = false <-> forall b, bound = Some b -> b = 0 \/ b <= val.
Proof.
  unfold and_lt. destruct bound as [b|].
  - destruct (Z.eqb_spec b 0) as [->|Hb]; cbn [negb andb].
    + split; [intros _ ? [= <-]; now left | reflexivity].
    + rewrite Z.ltb_ge. split.
      * intros H ? [= <-]. now right.
      * intros H. destruct (H b eq_refl); [contradiction | assumption].
  - split; [intros _ ? [=] | reflexivity].
Qed.

Lemma and_gt_false_iff bound val :
  and_gt bound val = false <-> forall b, bound = Some b -> b = 0 \/ val <= b.
Proof.
  unfold and_gt. destruct bound as [b|].
  - destruct (Z.eqb_spec b 0) as [->|Hb]; cbn [negb andb].
    + split; [intros _ ? [= <-]; now left | reflexivity].
    + rewrite Z.ltb_ge. split.
      * intros H ? [= <-]. now right.
      * intros H. destruct (H b eq_refl); [contradiction | assumption].
  - split; [intros _ ? [=] | reflexivity].
Qed.

Lemma and_lt_true b val : b <> 0 -> val < b -> and_lt (Some b) val = true.
Proof.
  intros Hb Hlt. unfold and_lt.
  destruct (Z.eqb_spec b 0); [contradiction|]. cbn. now apply Z.ltb_lt.
Qed.

Lemma and_gt_true b val : b <> 0 -> b < val -> and_gt (Some b) val = true.
Proof.
  intros Hb Hlt. unfold and_gt.
  destruct (Z.eqb_spec b 0); [contradiction|]. cbn. now apply Z.ltb_lt.
Qed.

(** What [validate] does on an integer, by cases on the two tests. *)
Lemma int_validate_spec attr mn mx n :
  IntConverter.validate
    {| IntConverter.attr := attr;
       IntConverter.min_val := Some mn;
       IntConverter.max_val := Some mx |} (VInt n)
  = if and_lt mn n || and_gt mx n then Raise ValueError else Ok (VInt n).
Proof.
  unfold IntConverter.validate. cbn.
  destruct (and_lt mn n); [reflexivity|]. cbn.
  destruct (and_gt mx n); reflexivity.
Qed.

(** C4, as stated, fails for the converter with [min=5, max=3]: the
    value 5, equal to [min], is rejected. It also fails for [min=0]:
    the value -1, one below [min], is accepted. *)
Lemma C4_int_bounds_counterexample :
  IntConverter.validate (int_bounds (Some 5) (Some 3)) (VInt 5) = Raise ValueError
  /\ IntConverter.validate (int_bounds (Some 0) None) (VInt (-1)) = Ok (VInt (-1)).
Proof. split; reflexivity. Qed.

(** C4, amended: an Integer converter rejects the value [min - 1] when
    [min] is non-zero and the value [max + 1] when [max] is non-zero,
    whatever the order of the two bounds; it accepts the value equal to
    [min], and the value equal to [max], provided that, when both
    bounds are set, [min <= max]. *)
Theorem C4_int_bounds (attr : option Attr) (mn mx : option Z) :
  let converter :=
    {| IntConverter.attr := attr;
       IntConverter.min_val := Some mn;
       IntConverter.max_val := Some mx |} in
  (forall a, mn = Some a ->
     (a <> 0 ->
      IntConverter.validate converter (VInt (a - 1)) = Raise ValueError)
     /\ ((forall b, mx = Some b -> a <= b) ->
         IntConverter.validate converter (VInt a) = Ok (VInt a)))
  /\ (forall b, mx = Some b ->
        (b <> 0 ->
         IntConverter.validate converter (VInt (b + 1)) = Raise ValueError)
        /\ ((forall a, mn = Some a -> a <= b) ->
            IntConverter.validate converter (VInt b) = Ok (VInt b))).
Proof.
  intros converter. subst converter. split.
  - intros a ->. rewrite !int_validate_spec. split.
    + intros Ha. rewrite and_lt_true by lia. reflexivity.
    + intros Hle.
      replace (and_lt (Some a) a) with false
        by (symmetry; apply and_lt_false_iff; intros ? [= <-]; right; lia).
      replace (and_gt mx a) with false; [reflexivity|].
      symmetry. apply and_gt_false_iff. intros b ->. right. now apply Hle.
  - intros b ->. rewrite !int_validate_spec. split.
    + intros Hb. rewrite and_gt_true by lia. rewrite orb_true_r. reflexivity.
    + intros Hle.
      replace (and_gt (Some b) b) with false
        by (symmetry; apply and_gt_false_iff; intros ? [= <-]; right; lia).
      replace (and_lt mn b) with false; [reflexivity|].
      symmetry. apply and_lt_false_iff. intros a ->. right. now apply Hle.
Qed.

Lemma C4_int_bounds_witness :
  IntConverter.validate (int_bounds (Some 5) (Some 3)) (VInt 4) = Raise ValueError
  /\ IntConverter.validate (int_bounds (Some 1) (Some 10)) (VInt 1) = Ok (VInt 1)
  /\ IntConverter.validate (int_bounds (Some 1) (Some 10)) (VInt 11) = Raise ValueError
  /\ IntConverter.validate (int_bounds (Some 1) (Some 10)) (VInt 10) = Ok (VInt 10).
Proof.
  assert (5 <> 0) as N5 by lia. assert (10 <> 0) as N10 by lia.
  assert (forall b : Z, Some 10 = Some b -> 1 <= b) as Hmax
    by (intros b Hb; injection Hb as <-; lia).
  assert (forall a : Z, Some 1 = Some a -> a <= 10) as Hmin
    by (intros a Ha; injection Ha as <-; lia).
  exact (conj
    (proj1 (proj1 (C4_int_bounds None (Some 5) (Some 3)) 5 eq_refl) N5)
    (conj
      (proj2 (proj1 (C4_int_bounds None (Some 1) (Some 10)) 1 eq_refl) Hmax)
      (conj
        (proj1 (proj2 (C4_int_bounds None (Some 1) (Some 10)) 10 eq_refl) N10)
        (proj2 (proj2 (C4_int_bounds None (Some 1) (Some 10)) 10 eq_refl) Hmin)))).
Defined.

(** ** BasestringConverter and UnicodeConverter *)

(** The column type is [VARCHAR(n)] exactly when [max_len] is the
    non-zero integer [n]. *)
Lemma sql_type_VARCHAR converter n :
  BasestringConverter.sql_type converter = Ok (VARCHAR n)
  <-> BasestringConverter.max_len converter = Some (Some n) /\ n <> 0.
Proof.
  unfold BasestringConverter.sql_type.
  destruct (BasestringConverter.max_len converter) as [[m|]|]; cbn.
  - destruct (Z.eqb_spec m 0) as [->|Hm]; cbn; split.
    + discriminate.
    + intros [[= <-] H]. contradiction.
    + intros [= <-]. now split.
    + intros [[= <-] _]. reflexivity.
  - split; [discriminate | intros [[=] _]].
  - split; [discriminate | intros [[=] _]].
Qed.

Lemma basestring_validate_too_long converter val n l :
  BasestringConverter.sql_type converter = Ok (VARCHAR n) ->
  len val = Ok l -> n < l ->
  BasestringConverter.validate converter val = Raise ValueError.
Proof.
  intros Hs Hl Hlt. apply sql_type_VARCHAR in Hs as [Hm Hn].
  unfold BasestringConverter.validate. rewrite Hm, Hl. cbn [getattr rbind].
  rewrite and_gt_true by assumption. reflexivity.
Qed.

Lemma basestring_init_default_max_len a converter kw :
  args a = [] -> is_clob (py_type a) = false ->
  exists converter' kw',
    BasestringConverter.init a converter kw = Ok (converter', kw')
    /\ BasestringConverter.max_len converter' = Some (Some 200)
    /\ BasestringConverter.sql_type converter' = Ok (VARCHAR 200).
Proof.
  intros Ha Hc. unfold BasestringConverter.init. rewrite Ha, Hc. cbn.
  eexists _, _. repeat split.
Qed.

Lemma unicode_validate_too_long_unicode converter u n :
  BasestringConverter.max_len converter = Some (Some n) -> n <> 0 ->
  n < Z.of_nat (length u) ->
  UnicodeConverter.validate converter (VUnicode u) = Raise ValueError.
Proof.
  intros Hm Hn Hlt. unfold UnicodeConverter.validate. cbn [rbind].
  apply (basestring_validate_too_long converter _ n (Z.of_nat (length u)));
    [apply sql_type_VARCHAR; now split | reflexivity | exact Hlt].
Qed.

(** C7, as stated, fails for a length of 0: the converter of a unicode
    attribute declared with length 0 is constructed, keeps [max_len]
    0, and accepts a value of length 3; its column type is TEXT, not
    VARCHAR: a length of 0 means no bound, to [validate] and to
    [sql_type] alike. *)
Lemma C7_text_max_len_counterexample :
  exists converter,
    BasestringConverter.new (Some unicode_len0_attr) = Ok converter
    /\ BasestringConverter.max_len converter = Some (Some 0)
    /\ BasestringConverter.validate converter (VUnicode [97; 98; 99])
       = Ok (VUnicode [97; 98; 99])
    /\ UnicodeConverter.validate converter (VUnicode [97; 98; 99])
       = Ok (VUnicode [97; 98; 99])
    /\ BasestringConverter.sql_type converter
       = Ok (TEXT_CHARACTER_SET (VStr ["u"; "t"; "f"; "8"]%byte)).
Proof.
  eexists. split; [vm_compute; reflexivity|]. repeat split.
Qed.

(** C7, amended: a text converter whose configured [max_len] is a
    non-zero integer rejects, with ValueError, every value whose length
    exceeds [max_len], through the shared [validate] and through
    [UnicodeConverter.validate] on a unicode value; and [init], for an
    attribute that declares no length argument and is not of a
    large-text type, sets [max_len] to 200. *)
Theorem C7_text_max_len :
  (forall converter val n l,
     BasestringConverter.max_len converter = Some (Some n) -> n <> 0 ->
     len val = Ok l -> n < l ->
     BasestringConverter.validate converter val = Raise ValueError)
  /\ (forall converter u n,
        BasestringConverter.max_len converter = Some (Some n) -> n <> 0 ->
        n < Z.of_nat (length u) ->
        UnicodeConverter.validate converter (VUnicode u) = Raise ValueError)
  /\ (forall a converter kw,
        args a = [] -> is_clob (py_type a) = false ->
        exists converter' kw',
          BasestringConverter.init a converter kw = Ok (converter', kw')
          /\ BasestringConverter.max_len converter' = Some (Some 200)
          /\ BasestringConverter.sql_type converter' = Ok (VARCHAR 200)).
Proof.
  split; [|split].
  - intros converter val n l Hm Hn Hl Hlt.
    apply (basestring_validate_too_long converter val n l);
      [apply sql_type_VARCHAR; now split | exact Hl | exact Hlt].
  - apply unicode_validate_too_long_unicode.
  - apply basestring_init_default_max_len.
Qed.

Lemma C7_text_max_len_witness :
  BasestringConverter.validate
    {| BasestringConverter.attr := None;
       BasestringConverter.max_len := Some (Some 3);
       BasestringConverter.db_encoding := VNone |}
    (VStr ["a"; "b"; "c"; "d"]%byte) = Raise ValueError
  /\ UnicodeConverter.validate
       {| BasestringConverter.attr := None;
          BasestringConverter.max_len := Some (Some 3);
          BasestringConverter.db_encoding := VNone |}
       (VUnicode [97; 98; 99; 100]) = Raise ValueError
  /\ exists converter' kw',
       BasestringConverter.init unicode_attr
         (BasestringConverter.fresh (Some unicode_attr)) ∅ = Ok (converter', kw')
       /\ BasestringConverter.max_len converter' = Some (Some 200)
       /\ BasestringConverter.sql_type converter' = Ok (VARCHAR 200).
Proof.
  split; [|split].
  - apply (proj1 C7_text_max_len _ _ 3 4); [reflexivity | lia | reflexivity | lia].
  - apply (proj1 (proj2 C7_text_max_len) _ _ 3); [reflexivity | lia | cbn; lia].
  - apply (proj2 (proj2 C7_text_max_len) unicode_attr); reflexivity.
Defined.

(** The whole constructor, on an attribute without options, gives the
    default bound. *)
Lemma unicode_new_default :
  exists converter,
    BasestringConverter.new (Some unicode_attr) = Ok converter
    /\ BasestringConverter.max_len converter = Some (Some 200).
Proof. eexists. split; [vm_compute; reflexivity | reflexivity]. Qed.

(** The same rejection through [UnicodeConverter.validate], for unicode
    values and for byte strings. *)
Lemma unicode_validate_too_long converter val n l :
  BasestringConverter.sql_type converter = Ok (VARCHAR n) ->
  (exists u, val = VUnicode u) \/ (exists s, val = VStr s) ->
  len val = Ok l -> n < l ->
  exists e, UnicodeConverter.validate converter val = Raise e.
Proof.
  intros Hs Hv Hl Hlt. unfold UnicodeConverter.validate.
  destruct Hv as [[u ->] | [s ->]]; cbn [rbind].
  - eexists. eapply basestring_validate_too_long; eassumption.
  - unfold UnicodeConverter.decode_ascii.
    destruct (forallb _ s); cbn [rbind]; [|eexists; reflexivity].
    eexists. eapply basestring_validate_too_long; [eassumption | | eassumption].
    cbn in *. rewrite length_map. exact Hl.
Qed.

(** C10: for every Unicode text converter, [validate(None)] raises and
    never returns: None passes the type branch unchanged and the shared
    check then fails on it, with TypeError from [len(None)] once
    [max_len] has been assigned (every converter built from an
    attribute), and with AttributeError on reading [max_len] for a
    converter built without an attribute. *)
Theorem C10_unicode_validate_None (converter : BasestringConverter.t) :
  UnicodeConverter.validate converter VNone
  = match BasestringConverter.max_len converter with
    | Some _ => Raise TypeError
    | None => Raise AttributeError
    end
  /\ (forall v, UnicodeConverter.validate converter VNone <> Ok v).
Proof.
  unfold UnicodeConverter.validate, BasestringConverter.validate.
  destruct (BasestringConverter.max_len converter); cbn;
    (split; [reflexivity | discriminate]).
Qed.

(** A converter built from an attribute always has [max_len] assigned,
    so on it [validate(None)] is the TypeError of the length check. *)
Lemma unicode_new_validate_None a converter :
  BasestringConverter.new (Some a) = Ok converter ->
  UnicodeConverter.validate converter VNone = Raise TypeError.
Proof.
  unfold BasestringConverter.new, Converter_init, BasestringConverter.init.
  intros H.
  destruct (match args a with [] => _ | _ => _ end) as [m0|]; [|discriminate].
  cbn [rbind] in H.
  destruct (if is_clob (py_type a) then _ else _) as [m1|]; [|discriminate].
  cbn [rbind] in H.
  destruct (pop _ _ _) as [enc kw']. cbn [rbind fst snd] in H.
  destruct (decide (kw' = ∅)); [|discriminate].
  injection H as <-. reflexivity.
Qed.

(** ** DecimalConverter construction *)

Section DecimalInit.

Import DecimalConverter.

Variable L : decimal_lib.

Lemma pop_decimal_bound_error name kw e :
  pop_decimal_bound L name kw = Raise e -> e = TypeError \/ e = InvalidOperation.
Proof.
  unfold pop_decimal_bound, Decimal_new. destruct (pop name VNone kw) as [v kw'].
  destruct v; cbn; try discriminate; try (intros [= <-]; now left);
    destruct (Decimal_of_text L _); cbn; try discriminate;
    intros [= <-]; now right.
Qed.

(** A precision or a scale that is out of range stops [init]. *)
Lemma init_rejects a converter kw p s :
  as_int (declared_precision a kw).1 = Some p ->
  as_int (declared_scale a (declared_precision a kw).2).1 = Some s ->
  p < s \/ p <= 0 \/ s <= 0 ->
  exists e, init L a converter kw = Raise e /\ (e = TypeError \/ e = ValueError).
Proof.
  intros Hp Hs Hbad. unfold init.
  destruct (2 <? length (args a))%nat; [eexists; split; [reflexivity | now left]|].
  destruct (declared_precision a kw) as [vp k1]. cbn [fst snd] in *. rewrite Hp.
  destruct (Z.leb_spec p 0); [eexists; split; [reflexivity | now left]|].
  destruct (declared_scale a k1) as [vs k2]. cbn [fst] in *. rewrite Hs.
  destruct (Z.leb_spec s 0); [eexists; split; [reflexivity | now left]|].
  destruct (Z.ltb_spec p s); [eexists; split; [reflexivity | now right]|].
  lia.
Qed.

(** Whatever [init] accepts has [0 < scale <= precision]. *)
Lemma init_accepts a converter kw converter' kw' :
  init L a converter kw = Ok (converter', kw') ->
  exists p s,
    precision converter' = Some p /\ scale converter' = Some s
    /\ 0 < s <= p
    /\ as_int (declared_precision a kw).1 = Some p
    /\ as_int (declared_scale a (declared_precision a kw).2).1 = Some s.
Proof.
  unfold init. intros H.
  destruct (2 <? length (args a))%nat; [discriminate|].
  destruct (declared_precision a kw) as [vp k1]. cbn [fst snd].
  destruct (as_int vp) as [p|]; [|discriminate].
  destruct (Z.leb_spec p 0); [discriminate|].
  destruct (declared_scale a k1) as [vs k2]. cbn [fst].
  destruct (as_int vs) as [s|]; [|discriminate].
  destruct (Z.leb_spec s 0); [discriminate|].
  destruct (Z.ltb_spec p s); [discriminate|].
  destruct (pop_decimal_bound L "min" k2) as [r1|]; [|discriminate].
  cbn [rbind] in H.
  destruct (pop_decimal_bound L "max" r1.2) as [r2|]; [|discriminate].
  cbn [rbind] in H. injection H as <- <-.
  exists p, s. cbn. repeat split; lia.
Qed.

Lemma new_rejects a p s :
  as_int (declared_precision a (keyargs a)).1 = Some p ->
  as_int (declared_scale a (declared_precision a (keyargs a)).2).1 = Some s ->
  p < s \/ p <= 0 \/ s <= 0 ->
  exists e, new L (Some a) = Raise e /\ (e = TypeError \/ e = ValueError).
Proof.
  intros Hp Hs Hbad. unfold new, Converter_init.
  destruct (init_rejects a (fresh (Some a)) (keyargs a) p s Hp Hs Hbad)
    as (e & -> & He).
  exists e. split; [reflexivity | exact He].
Qed.

Lemma new_accepts a converter :
  new L (Some a) = Ok converter ->
  exists p s,
    precision converter = Some p /\ scale converter = Some s /\ 0 < s <= p.
Proof.
  unfold new, Converter_init. intros H.
  destruct (init L a (fresh (Some a)) (keyargs a)) as [[c kw']|] eqn:E;
    [|discriminate].
  cbn [rbind fst snd] in H. destruct (decide (kw' = ∅)); [|discriminate].
  injection H as <-.
  destruct (init_accepts _ _ _ _ _ E) as (p & s & Hp & Hs & Hr & _).
  exists p, s. auto.
Qed.

(** [validate] never looks at the precision or at the scale. *)
Lemma validate_independent_of_precision c1 c2 val :
  min_val c1 = min_val c2 -> max_val c1 = max_val c2 ->
  validate L c1 val = validate L c2 val.
Proof.
  intros Hmin Hmax. unfold validate, validate_stmt3, validate_stmt4.
  rewrite Hmin, Hmax. reflexivity.
Qed.

End DecimalInit.

(** C8: constructing a Decimal converter fails, with TypeError or
    ValueError, whenever the declared scale exceeds the declared
    precision, the precision is not positive, or the scale is not
    positive; every converter that is constructed has
    [0 < scale <= precision]; and the outcome of [validate] does not
    depend on precision or scale, so none of these errors can come from
    validating a value. *)
Theorem C8_decimal_config_errors (L : decimal_lib) (a : Attr) (p s : Z) :
  as_int (DecimalConverter.declared_precision a (keyargs a)).1 = Some p ->
  as_int (DecimalConverter.declared_scale a
            (DecimalConverter.declared_precision a (keyargs a)).2).1 = Some s ->
  p < s \/ p <= 0 \/ s <= 0 ->
  (exists e, DecimalConverter.new L (Some a) = Raise e
             /\ (e = TypeError \/ e = ValueError))
  /\ (forall a' converter,
        DecimalConverter.new L (Some a') = Ok converter ->
        exists p' s',
          DecimalConverter.precision converter = Some p'
          /\ DecimalConverter.scale converter = Some s' /\ 0 < s' <= p')
  /\ (forall c1 c2 val,
        DecimalConverter.min_val c1 = DecimalConverter.min_val c2 ->
        DecimalConverter.max_val c1 = DecimalConverter.max_val c2 ->
        DecimalConverter.validate L c1 val = DecimalConverter.validate L c2 val).
Proof.
  intros Hp Hs Hbad. split; [|split].
  - now apply (new_rejects L a p s).
  - apply new_accepts.
  - apply validate_independent_of_precision.
Qed.

Lemma C8_decimal_config_errors_witness :
  exists e, DecimalConverter.new no_decimal_text (Some decimal_3_5) = Raise e
            /\ (e = TypeError \/ e = ValueError).
Proof.
  refine (proj1 (C8_decimal_config_errors no_decimal_text decimal_3_5 3 5 _ _ _)).
  - reflexivity.
  - reflexivity.
  - left. lia.
Defined.

(** The three ways of failing, on concrete declarations. *)
Lemma decimal_new_examples (L : decimal_lib) :
  DecimalConverter.new L (Some decimal_3_5) = Raise ValueError
  /\ DecimalConverter.new L
       (Some {| py_type := TDecimal; args := [VInt 0]; keyargs := ∅ |})
     = Raise TypeError
  /\ DecimalConverter.new L
       (Some {| py_type := TDecimal; args := [];
                keyargs := <["scale" := VInt (-1)]> ∅ |})
     = Raise TypeError.
Proof. repeat split; vm_compute; reflexivity. Qed.

(** ** PGTable.create *)

Section TableFacts.

Context `{Driver}.

Lemma create_succeeds h s w1 :
  Table_create h (db s) = (Ok tt, w1) ->
  PGTable.create h s
  = (Ok tt, {| db := w1; calls := calls s ++ [CallTableCreate h] |}).
Proof.
  intros E. unfold PGTable.create, try_except, driver_call. rewrite E.
  reflexivity.
Qed.

Lemma create_propagates h s e w1 :
  Table_create h (db s) = (Raise e, w1) ->
  already_exists e = false ->
  PGTable.create h s
  = (Raise e, {| db := w1; calls := calls s ++ [CallTableCreate h] |}).
Proof.
  intros E Hno. unfold PGTable.create, try_except, driver_call. rewrite E.
  unfold already_exists in Hno.
  destruct (is_DatabaseError e); [|reflexivity].
  cbn [andb] in Hno. rewrite Hno. reflexivity.
Qed.

Lemma create_recovers h s e w1 :
  Table_create h (db s) = (Raise e, w1) ->
  already_exists e = true ->
  PGTable.create h s
  = match con_rollback h w1 with
    | (Ok u, w2) =>
        (Ok u, {| db := w2;
                  calls := (calls s ++ [CallTableCreate h]) ++ [CallRollback h] |})
    | (Raise e2, w2) =>
        (Raise (wrap_dbapi_exn e2),
         {| db := w2;
            calls := (calls s ++ [CallTableCreate h]) ++ [CallRollback h] |})
    end.
Proof.
  intros E Hyes. unfold PGTable.create, try_except, driver_call. rewrite E.
  unfold already_exists in Hyes. apply andb_prop in Hyes as [H1 H2].
  rewrite H1, H2. cbn [negb].
  unfold wrap_dbapi_exceptions, try_except, raise. cbn [db calls].
  destruct (con_rollback h w1) as [[u|e2] w2]; reflexivity.
Qed.

End TableFacts.

(** C5, as stated, fails when the rollback that follows an
    already-exists failure raises: [create] then raises that error and
    the session stays aborted. *)
Lemma C5_create_counterexample :
  already_exists relation_exists = true
  /\ Table_create 7%nat exists_then_lost
     = (Raise relation_exists, Sim.set_aborted true exists_then_lost)
  /\ (PGTable.create 7%nat (sim_env exists_then_lost)).1 = Raise connection_lost
  /\ in_failed_transaction (db (PGTable.create 7%nat (sim_env exists_then_lost)).2)
       7%nat = true.
Proof. repeat split; vm_compute; reflexivity. Qed.

(** C5, amended: when the CREATE fails with a database error whose
    message contains "already exists", [create] issues one rollback on
    the connection; if that rollback succeeds, [create] returns
    normally and the session is no longer aborted; if the rollback
    raises, its error (translated) is raised. Any other failure of the
    CREATE is raised unchanged and no rollback is issued. *)
Theorem C5_create_policy `{Driver} (h : handle) (s : env) (e : exn) (w1 : world) :
  (forall c w w', con_rollback c w = (Ok tt, w') ->
                  in_failed_transaction w' c = false) ->
  Table_create h (db s) = (Raise e, w1) ->
  if already_exists e then
    match con_rollback h w1 with
    | (Ok _, w2) =>
        PGTable.create h s
        = (Ok tt, {| db := w2;
                     calls := calls s ++ [CallTableCreate h; CallRollback h] |})
        /\ in_failed_transaction w2 h = false
    | (Raise e2, w2) =>
        PGTable.create h s
        = (Raise (wrap_dbapi_exn e2),
           {| db := w2;
              calls := calls s ++ [CallTableCreate h; CallRollback h] |})
    end
  else
    PGTable.create h s
    = (Raise e, {| db := w1; calls := calls s ++ [CallTableCreate h] |}).
Proof.
  intros Hlaw E. destruct (already_exists e) eqn:Hae.
  - rewrite (create_recovers h s e w1 E Hae).
    destruct (con_rollback h w1) as [[[]|e2] w2] eqn:Er;
      rewrite <- app_assoc; cbn [app].
    + split; [reflexivity|]. eapply Hlaw. exact Er.
    + reflexivity.
  - now apply create_propagates.
Qed.

Lemma C5_create_policy_witness :
  PGTable.create 7%nat (sim_env exists_only)
  = (Ok tt, {| db := Sim.set_aborted false (Sim.set_aborted true exists_only);
               calls := [CallTableCreate 7%nat; CallRollback 7%nat] |})
  /\ in_failed_transaction
       (Sim.set_aborted false (Sim.set_aborted true exists_only)) 7%nat = false.
Proof.
  refine (C5_create_policy (H := Sim.driver) 7%nat (sim_env exists_only)
            relation_exists (Sim.set_aborted true exists_only) _ _).
  - intros c w w'. cbn. unfold Sim.sim_rollback.
    destruct (Sim.rollback_fails w); [discriminate|].
    intros [= <-]. reflexivity.
  - reflexivity.
Defined.

(** ** Pool *)

Section PoolFacts.

Context `{Driver}.

Import Pool.


Lemma is_con_held c : is_con c (Some c) = true.
Proof. apply Nat.eqb_refl. Qed.


Lemma connect_opens s :
  con (pool s) = None ->
  connect s
  = match pgdb_connect (pool_args (pool s)) (pool_keyargs (pool s))
            (db (outside s)) with
    | (Ok h, w1) =>
        (Ok h,
         {| pool := {| pool_args := pool_args (pool s);
                       pool_keyargs := pool_keyargs (pool s);
                       con := Some h |};
            outside := {| db := w1;
                          calls := calls (outside s) ++ [CallConnect] |} |})
    | (Raise e, w1) =>
        (Raise e,
         {| pool := pool s;
            outside := {| db := w1;
                          calls := calls (outside s) ++ [CallConnect] |} |})
    end.
Proof.
  intros E. unfold connect, bind, get_pool. rewrite E.
  unfold lift, driver_call.
  destruct (pgdb_connect _ _ _) as [[h|e] w1]; reflexivity.
Qed.


Lemma close_spec c s :
  con (pool s) = Some c ->
  close c s
  = match con_close c (db (outside s)) with
    | (r, w1) =>
        (r, {| pool := cleared (pool s);
               outside := {| db := w1;
                             calls := calls (outside s) ++ [CallClose c] |} |})
    end.
Proof.
  intros E. unfold close, bind, get_pool. rewrite E, is_con_held.
  cbn. unfold lift, driver_call. cbn.
  destruct (con_close c (db (outside s))) as [r w1]. reflexivity.
Qed.

Lemma release_spec c s :
  con (pool s) = Some c ->
  release c s
  = match con_rollback c (db (outside s)) with
    | (Ok u, w1) =>
        (Ok u, {| pool := pool s;
                  outside := {| db := w1;
                                calls := calls (outside s) ++ [CallRollback c] |} |})
    | (Raise e, w1) =>
        match con_close c w1 with
        | (Ok _, w2) =>
            (Raise e,
             {| pool := cleared (pool s);
                outside := {| db := w2;
                              calls := (calls (outside s) ++ [CallRollback c])
                                       ++ [CallClose c] |} |})
        | (Raise e2, w2) =>
            (Raise e2,
             {| pool := cleared (pool s);
                outside := {| db := w2;
                              calls := (calls (outside s) ++ [CallRollback c])
                                       ++ [CallClose c] |} |})
        end
    end.
Proof.
  intros E. unfold release, bind, get_pool. rewrite E, is_con_held.
  cbn -[close]. unfold try_except, lift, driver_call.
  destruct (con_rollback c (db (outside s))) as [[u|e] w1]; [reflexivity|].
  rewrite close_spec by exact E. cbn.
  destruct (con_close c w1) as [[u|e2] w2]; reflexivity.
Qed.



End PoolFacts.

(** C6, as stated, fails when the close that follows a failed rollback
    raises too: the caller then gets the error of the close, not that
    of the rollback. *)
Lemma C6_release_counterexample :
  con_rollback 7%nat lost_and_stuck = (Raise connection_lost, lost_and_stuck)
  /\ (Pool.release 7%nat (sim_state (Some 7%nat) lost_and_stuck)).1
     = Raise close_failed
  /\ (Pool.release 7%nat (sim_state (Some 7%nat) lost_and_stuck)).1
     <> Raise connection_lost.
Proof.
  split; [reflexivity|]. split; [vm_compute; reflexivity|].
  vm_compute. discriminate.
Qed.

(** C6, amended: releasing the held connection issues a rollback on
    it. If the rollback succeeds, [release] returns normally and the
    pool still holds the same handle. If the rollback raises, the pool's
    handle is cleared and the connection's [close] is called; when that
    [close] returns, the error of the rollback is raised to the caller;
    when that [close] raises, its error is raised instead. *)
Theorem C6_release_policy `{Driver} (c : handle) (s : Pool.state) :
  Pool.con (Pool.pool s) = Some c ->
  match con_rollback c (db (Pool.outside s)) with
  | (Ok _, w1) =>
      Pool.release c s
      = (Ok tt,
         {| Pool.pool := Pool.pool s;
            Pool.outside :=
              {| db := w1;
                 calls := calls (Pool.outside s) ++ [CallRollback c] |} |})
      /\ Pool.con (Pool.pool (Pool.release c s).2) = Some c
  | (Raise e, w1) =>
      Pool.con (Pool.pool (Pool.release c s).2) = None
      /\ calls (Pool.outside (Pool.release c s).2)
         = calls (Pool.outside s) ++ [CallRollback c; CallClose c]
      /\ match con_close c w1 with
         | (Ok _, w2) =>
             (Pool.release c s).1 = Raise e
             /\ db (Pool.outside (Pool.release c s).2) = w2
         | (Raise e2, w2) => (Pool.release c s).1 = Raise e2
         end
  end.
Proof.
  intros E. rewrite (release_spec c s E).
  destruct (con_rollback c (db (Pool.outside s))) as [[[]|e] w1].
  - cbn. split; [reflexivity | exact E].
  - destruct (con_close c w1) as [[[]|e2] w2]; cbn;
      rewrite <- app_assoc; repeat split.
Qed.

Lemma C6_release_policy_witness :
  Pool.con (Pool.pool (Pool.release 7%nat (sim_state (Some 7%nat) lost)).2) = None
  /\ calls (Pool.outside (Pool.release 7%nat (sim_state (Some 7%nat) lost)).2)
     = [CallRollback 7%nat; CallClose 7%nat]
  /\ (Pool.release 7%nat (sim_state (Some 7%nat) lost)).1 = Raise connection_lost
  /\ db (Pool.outside (Pool.release 7%nat (sim_state (Some 7%nat) lost)).2) = lost.
Proof.
  pose proof (C6_release_policy (H := Sim.driver) 7%nat
                (sim_state (Some 7%nat) lost) eq_refl) as P.
  cbn in P. destruct P as (A & B & C & D). repeat split; assumption.
Defined.

(** A successful rollback keeps the handle, on the scripted driver. *)
Lemma release_keeps_handle_example :
  Pool.release 7%nat (sim_state (Some 7%nat) Sim.calm)
  = (Ok tt,
     {| Pool.pool := Pool.pool (sim_state (Some 7%nat) Sim.calm);
        Pool.outside := {| db := Sim.calm; calls := [CallRollback 7%nat] |} |}).
Proof. vm_compute. reflexivity. Qed.



(** * Further properties *)

(** ** The binary codec, continued *)

Section CodecMore.

Import Codec BlobConverter.

Lemma escape_not_backslash c d1 d2 d3 :
  char2oct c = [backslash; d1; d2; d3] -> byte_eqb c backslash = false.
Proof.
  intros E. destruct (byte_eqb c backslash) eqn:Hc; [|reflexivity].
  apply byte_eqb_eq in Hc. subst c. discriminate E.
Qed.

Lemma octal_is_plain c :
  is_octal_digit c = true ->
  char2oct c = [c] /\ byte_eqb c backslash = false.
Proof.
  intros Ho.
  destruct (entry_shape_all c) as [Ec Hc | -> Ec | d1 d2 d3 Ec H1 H2 H3 Hc Hchr].
  - now split.
  - discriminate Ho.
  - congruence.
Qed.

Lemma starts_oct_collapsed_rev n b :
  starts_oct n b = true -> starts_oct n (replace_bs (py2sql b)) = true.
Proof.
  revert b. induction n as [|n IH]; intros b H; [reflexivity|].
  destruct b as [|c b]; [discriminate H|].
  cbn [starts_oct] in H. apply andb_prop in H as [H1 H2].
  destruct (octal_is_plain c H1) as [Ec Hc].
  rewrite py2sql_cons, Ec. cbn [app].
  rewrite replace_bs_plain by exact Hc.
  cbn [starts_oct]. rewrite H1. cbn [andb]. now apply IH.
Qed.

Lemma starts_oct_3_inv b :
  starts_oct 3 b = true ->
  exists o1 o2 o3 b',
    b = o1 :: o2 :: o3 :: b'
    /\ is_octal_digit o1 = true /\ is_octal_digit o2 = true
    /\ is_octal_digit o3 = true.
Proof.
  destruct b as [|o1 [|o2 [|o3 b']]]; cbn; try discriminate;
    try (rewrite ?andb_false_r; discriminate).
  intros H. apply andb_prop in H as [H1 H]. apply andb_prop in H as [H2 H].
  apply andb_prop in H as [H3 _]. now exists o1, o2, o3, b'.
Qed.

Lemma collapsed_three o1 o2 o3 b :
  is_octal_digit o1 = true -> is_octal_digit o2 = true ->
  is_octal_digit o3 = true ->
  replace_bs (py2sql (o1 :: o2 :: o3 :: b))
  = o1 :: o2 :: o3 :: replace_bs (py2sql b).
Proof.
  intros H1 H2 H3.
  destruct (octal_is_plain o1 H1) as [E1 N1].
  destruct (octal_is_plain o2 H2) as [E2 N2].
  destruct (octal_is_plain o3 H3) as [E3 N3].
  rewrite !py2sql_cons, E1, E2, E3. cbn [app].
  now rewrite !replace_bs_plain.
Qed.

(** What the decoder returns is never longer than the data, and is
    shorter as soon as the data contains a backslash followed by three
    octal digits. *)
Lemma decode_encode_length n :
  forall b r,
    (length b <= n)%nat ->
    oct_re_sub (replace_bs (py2sql b)) = Ok r ->
    (length r <= length b)%nat
    /\ (has_bs_octal b = true -> (length r < length b)%nat).
Proof.
  induction n as [|n IH]; intros b r Hn Hd.
  - destruct b; [|cbn in Hn; lia]. injection Hd as <-. split; [lia | discriminate].
  - destruct b as [|c b]; [injection Hd as <-; split; [cbn; lia | discriminate]|].
    cbn [length] in Hn. rewrite py2sql_cons in Hd. cbn [has_bs_octal].
    destruct (entry_shape_all c) as [Ec Hc | -> Ec | d1 d2 d3 Ec H1 H2 H3 Hc Hchr];
      rewrite Ec in Hd; cbn [app] in Hd.
    + rewrite replace_bs_plain in Hd by exact Hc.
      rewrite oct_re_sub_copy in Hd by (rewrite Hc; reflexivity).
      destruct (oct_re_sub (replace_bs (py2sql b))) as [r'|] eqn:Er; [|discriminate].
      injection Hd as <-. destruct (IH b r' ltac:(lia) Er) as [A B].
      rewrite Hc. cbn. split; [lia|]. intros Hb. specialize (B Hb). lia.
    + rewrite replace_bs_pair in Hd.
      replace (byte_eqb backslash backslash) with true by reflexivity.
      cbn [andb].
      destruct (starts_oct 3 b) eqn:Hs.
      * destruct (starts_oct_3_inv b Hs) as (o1 & o2 & o3 & b' & -> & O1 & O2 & O3).
        rewrite collapsed_three in Hd by assumption.
        rewrite oct_re_sub_match in Hd by assumption.
        destruct (chr _) as [c'|]; [|discriminate]. cbn [rbind] in Hd.
        destruct (oct_re_sub (replace_bs (py2sql b'))) as [r'|] eqn:Er;
          [|discriminate].
        injection Hd as <-. cbn [length] in *.
        destruct (IH b' r' ltac:(lia) Er) as [A _].
        split; [lia | intros _; lia].
      * rewrite oct_re_sub_copy in Hd.
        2:{ replace (byte_eqb backslash backslash) with true by reflexivity.
            cbn [andb].
            destruct (starts_oct 3 (replace_bs (py2sql b))) eqn:E; [|reflexivity].
            apply starts_oct_collapsed in E. congruence. }
        destruct (oct_re_sub (replace_bs (py2sql b))) as [r'|] eqn:Er; [|discriminate].
        injection Hd as <-. destruct (IH b r' ltac:(lia) Er) as [A B].
        cbn. split; [lia|]. intros Hb. specialize (B Hb). lia.
    + pose proof (escape_not_backslash _ _ _ _ Ec) as Hnb.
      rewrite replace_bs_escape in Hd by now apply octal_not_backslash.
      rewrite !replace_bs_plain in Hd by now apply octal_not_backslash.
      rewrite oct_re_sub_match in Hd by assumption.
      rewrite Hchr in Hd. cbn [rbind] in Hd.
      destruct (oct_re_sub (replace_bs (py2sql b))) as [r'|] eqn:Er; [|discriminate].
      injection Hd as <-. destruct (IH b r' ltac:(lia) Er) as [A B].
      rewrite Hnb. cbn. split; [lia|]. intros Hb. specialize (B Hb). lia.
Qed.

Lemma entry_prefix_free c1 c2 r1 r2 :
  char2oct c1 ++ r1 = char2oct c2 ++ r2 -> c1 = c2 /\ r1 = r2.
Proof.
  intros E.
  destruct (entry_shape_all c1) as [E1 N1 | -> E1 | a1 a2 a3 E1 A1 A2 A3 _ C1];
    destruct (entry_shape_all c2) as [E2 N2 | -> E2 | b1 b2 b3 E2 B1 B2 B3 _ C2];
    rewrite ?E1, ?E2 in E; cbn [app] in E.
  - injection E as -> ->. now split.
  - injection E as -> _. discriminate N1.
  - injection E as -> _. discriminate N1.
  - injection E as <- _. discriminate N2.
  - injection E as ->. now split.
  - injection E as <- _. apply octal_not_backslash in B1. discriminate B1.
  - injection E as <- _. discriminate N2.
  - injection E as -> _. apply octal_not_backslash in A1. discriminate A1.
  - injection E as -> -> -> ->. rewrite C1 in C2. injection C2 as ->. now split.
Qed.

Lemma py2sql_injective b1 :
  forall b2, py2sql b1 = py2sql b2 -> b1 = b2.
Proof.
  induction b1 as [|c1 b1 IH]; intros [|c2 b2] E.
  - reflexivity.
  - rewrite py2sql_cons in E.
    destruct (entry_shape_all c2) as [E2 _ | _ E2 | ? ? ? E2 _ _ _ _ _];
      rewrite E2 in E; discriminate E.
  - rewrite py2sql_cons in E.
    destruct (entry_shape_all c1) as [E1 _ | _ E1 | ? ? ? E1 _ _ _ _ _];
      rewrite E1 in E; discriminate E.
  - rewrite !py2sql_cons in E. apply entry_prefix_free in E as [-> E].
    f_equal. now apply IH.
Qed.

Lemma entry_printable c : Forall (fun x => printable x = true) (char2oct c).
Proof.
  destruct c; vm_compute; repeat constructor.
Qed.

Lemma entry_length c : (1 <= length (char2oct c) <= 4)%nat.
Proof.
  destruct (entry_shape_all c) as [E _ | _ E | ? ? ? E _ _ _ _ _];
    rewrite E; cbn; lia.
Qed.

Lemma unhexlify_result s :
  match unhexlify s with
  | Ok b => length s = (2 * length b)%nat
  | Raise e => e = TypeError
  end.
Proof.
  assert (forall n s, (length s <= n)%nat ->
            match unhexlify s with
            | Ok b => length s = (2 * length b)%nat
            | Raise e => e = TypeError
            end) as G.
  { clear s. induction n as [|n IH]; intros s Hn.
    - destruct s; [reflexivity | cbn in Hn; lia].
    - destruct s as [|h [|l r]]; [reflexivity | reflexivity |].
      cbn [unhexlify]. cbn [length] in Hn.
      destruct (hex_value h) as [a|] eqn:Ha; [|reflexivity].
      destruct (hex_value l) as [b|] eqn:Hb; [|reflexivity].
      assert (0 <= a < 16) as Ra.
      { unfold hex_value in Ha.
        repeat match type of Ha with
               | (if ?c then _ else _) = _ => destruct c eqn:?
               end; try discriminate; injection Ha as <-; lia. }
      assert (0 <= b < 16) as Rb.
      { unfold hex_value in Hb.
        repeat match type of Hb with
               | (if ?c then _ else _) = _ => destruct c eqn:?
               end; try discriminate; injection Hb as <-; lia. }
      assert (exists c, chr (16 * a + b) = Ok c) as [c Ec].
      { unfold chr.
        replace ((0 <=? 16 * a + b) && (16 * a + b <? 256)) with true
          by (symmetry; apply andb_true_intro; split;
              [apply Z.leb_le | apply Z.ltb_lt]; lia).
        destruct (Byte.of_N (Z.to_N (16 * a + b))) as [c|] eqn:E;
          [now exists c|].
        apply Byte.of_N_None_iff in E. lia. }
      rewrite Ec. cbn [rbind].
      specialize (IH r ltac:(lia)).
      destruct (unhexlify r) as [b'|e]; cbn [rbind]; [|exact IH].
      cbn [length]. lia. }
  apply (G (length s)). lia.
Qed.

End CodecMore.

(** X1: the binary round trip [sql2py(py2sql(b)) == b] holds exactly
    for the byte strings that contain no backslash followed by three
    octal digits. *)
Theorem X1_blob_roundtrip_iff (b : list byte) :
  BlobConverter.sql2py (BlobConverter.py2sql b) = Ok b
  <-> has_bs_octal b = false.
Proof.
  split.
  - intros E. destruct (has_bs_octal b) eqn:Hb; [|reflexivity].
    unfold BlobConverter.sql2py in E. rewrite py2sql_not_hex_form in E.
    destruct (decode_encode_length (length b) b b (Nat.le_refl _) E) as [_ C].
    specialize (C Hb). lia.
  - apply blob_roundtrip_escape_free.
Qed.

Lemma X1_blob_roundtrip_iff_witness :
  BlobConverter.sql2py (BlobConverter.py2sql ["\"; "\"; x00; "1"; "0"; "1"; xff]%byte)
  = Ok ["\"; "\"; x00; "1"; "0"; "1"; xff]%byte.
Proof.
  apply (proj2 (X1_blob_roundtrip_iff ["\"; "\"; x00; "1"; "0"; "1"; xff]%byte)).
  reflexivity.
Defined.

(** X2: the hex form of any byte string, the two-character marker
    followed by two lower-case hexadecimal digits per byte, decodes to
    that byte string. *)
Theorem X2_blob_hex_form_decodes (b : list byte) :
  BlobConverter.sql2py (backslash :: "x"%byte :: hexlify b) = Ok b.
Proof. apply blob_decode_hex_form. Qed.

(** X3: the text [py2sql] produces consists of printable ASCII bytes
    only, has between one and four bytes per byte of data, and never
    starts with the hex marker, so [sql2py] always reads it in the
    escape form. *)
Theorem X3_py2sql_shape (b : list byte) :
  Forall (fun c => printable c = true) (BlobConverter.py2sql b)
  /\ (length b <= length (BlobConverter.py2sql b) <= 4 * length b)%nat
  /\ BlobConverter.startswith_bs_x (BlobConverter.py2sql b) = false.
Proof.
  split; [|split].
  - induction b as [|c b IH]; [constructor|].
    rewrite py2sql_cons. apply Forall_app. split; [apply entry_printable | exact IH].
  - induction b as [|c b IH]; [cbn; lia|].
    rewrite py2sql_cons, length_app. pose proof (entry_length c). cbn [length]. lia.
  - apply py2sql_not_hex_form.
Qed.

(** X4: [py2sql] loses nothing: two byte strings with the same
    encoding are equal. *)
Theorem X4_py2sql_injective (b1 b2 : list byte) :
  BlobConverter.py2sql b1 = BlobConverter.py2sql b2 -> b1 = b2.
Proof. apply py2sql_injective. Qed.

Lemma X4_py2sql_injective_witness :
  ["\"; "1"]%byte = ["\"; "1"]%byte.
Proof.
  apply (X4_py2sql_injective ["\"; "1"]%byte ["\"; "1"]%byte). reflexivity.
Defined.

(** X5: on text in hex form, [sql2py] either returns a byte string of
    half the length of the digits or raises TypeError (odd number of
    digits, or a character that is no hexadecimal digit); it raises
    nothing else. *)
Theorem X5_sql2py_hex_outcome (s : list byte) :
  match BlobConverter.sql2py (backslash :: "x"%byte :: s) with
  | Ok b => length s = (2 * length b)%nat
  | Raise e => e = TypeError
  end.
Proof. unfold BlobConverter.sql2py. cbn. apply unhexlify_result. Qed.

(** X6: [BlobConverter.validate] accepts a buffer as it is and a byte
    string as the buffer of the same bytes, rejects every other value
    with TypeError, and validating its result again changes nothing. *)
Theorem X6_blob_validate (val : pyval) :
  match BlobConverter_validate val with
  | Ok v =>
      (exists s, v = VBuffer s /\ (val = VBuffer s \/ val = VStr s))
      /\ BlobConverter_validate v = Ok v
  | Raise e =>
      e = TypeError /\ forall s, val <> VBuffer s /\ val <> VStr s
  end.
Proof.
  destruct val; cbn; try (split; [reflexivity | intros; split; discriminate]).
  - split; [exists s; auto | reflexivity].
  - split; [exists s; auto | reflexivity].
Qed.

(** ** Text converters, continued *)

Lemma and_gt_false_cases m l :
  and_gt m l = false
  <-> m = None \/ m = Some 0 \/ exists n, m = Some n /\ l <= n.
Proof.
  rewrite and_gt_false_iff. split.
  - intros Hm. destruct m as [n|]; [|now left].
    destruct (Hm n eq_refl) as [-> | Hle]; [now right; left|].
    right. right. now exists n.
  - intros [-> | [-> | [n [-> Hle]]]] b; intros [= <-]; auto.
Qed.

(** When [validate] accepts, for a converter whose [max_len] is
    assigned. *)
Lemma basestring_validate_accepts converter m val v :
  BasestringConverter.max_len converter = Some m ->
  BasestringConverter.validate converter val = Ok v
  <-> v = val
      /\ exists l, len val = Ok l /\ 0 < l
                   /\ (m = None \/ m = Some 0 \/ exists n, m = Some n /\ l <= n).
Proof.
  intros Hm. unfold BasestringConverter.validate. rewrite Hm. cbn [getattr rbind].
  split.
  - destruct (len val) as [l|] eqn:Hl; [|discriminate]. cbn [rbind].
    destruct (and_gt m l) eqn:Hg; [discriminate|].
    destruct (Z.eqb_spec l 0); [discriminate|].
    intros [= <-]. split; [reflexivity|]. exists l.
    split; [reflexivity|]. split.
    + destruct val; cbn in Hl; try discriminate; injection Hl as <-; lia.
    + now apply and_gt_false_cases.
  - intros [-> (l & Hl & Hpos & Hb)]. rewrite Hl. cbn [rbind].
    apply and_gt_false_cases in Hb. rewrite Hb.
    destruct (Z.eqb_spec l 0); [lia | reflexivity].
Qed.

Lemma delete_empty_lookup (k k' : string) (m : gmap string pyval) :
  delete k m = ∅ -> k' <> k -> m !! k' = None.
Proof.
  intros E Hne. rewrite <- (lookup_delete_ne m k k') by congruence.
  rewrite E. apply lookup_empty.
Qed.

(** X7: a text converter rejects the empty string with ValueError,
    whatever its length bound: the empty byte string and the empty
    unicode string, through [BasestringConverter.validate] and through
    [UnicodeConverter.validate]. *)
Theorem X7_text_rejects_empty (converter : BasestringConverter.t)
    (m : option Z) (val : pyval) :
  BasestringConverter.max_len converter = Some m ->
  len val = Ok 0 ->
  BasestringConverter.validate converter val = Raise ValueError
  /\ UnicodeConverter.validate converter (VUnicode []) = Raise ValueError
  /\ UnicodeConverter.validate converter (VStr []) = Raise ValueError.
Proof.
  intros Hm Hl.
  assert (forall v, len v = Ok 0 ->
            BasestringConverter.validate converter v = Raise ValueError) as G.
  { intros v Hv. unfold BasestringConverter.validate.
    rewrite Hm, Hv. cbn [getattr rbind].
    destruct (and_gt m 0); reflexivity. }
  split; [now apply G|]. split; cbn; now apply G.
Qed.

Lemma X7_text_rejects_empty_witness :
  BasestringConverter.validate
    {| BasestringConverter.attr := None;
       BasestringConverter.max_len := Some (Some 200);
       BasestringConverter.db_encoding := VNone |} (VStr [])
  = Raise ValueError.
Proof.
  refine (proj1 (X7_text_rejects_empty _ (Some 200) (VStr []) _ _));
    reflexivity.
Defined.

(** X8: a text converter with [max_len] assigned accepts a value
    exactly when the value has a length, the length is positive, and
    [max_len] is None, is 0, or is at least the length; what it returns
    is the value itself. *)
Theorem X8_text_validate_accepts (converter : BasestringConverter.t)
    (m : option Z) (val v : pyval) :
  BasestringConverter.max_len converter = Some m ->
  (BasestringConverter.validate converter val = Ok v
   <-> v = val
       /\ exists l, len val = Ok l /\ 0 < l
                    /\ (m = None \/ m = Some 0 \/ exists n, m = Some n /\ l <= n)).
Proof. apply basestring_validate_accepts. Qed.

Lemma X8_text_validate_accepts_witness :
  BasestringConverter.validate
    {| BasestringConverter.attr := None;
       BasestringConverter.max_len := Some (Some 3);
       BasestringConverter.db_encoding := VNone |} (VStr ["a"; "b"; "c"]%byte)
  = Ok (VStr ["a"; "b"; "c"]%byte).
Proof.
  apply (proj2 (X8_text_validate_accepts
                  {| BasestringConverter.attr := None;
                     BasestringConverter.max_len := Some (Some 3);
                     BasestringConverter.db_encoding := VNone |}
                  (Some 3) _ _ eq_refl)).
  split; [reflexivity|]. exists 3. split; [reflexivity|]. split; [lia|].
  right. right. exists 3. split; [reflexivity | lia].
Defined.

(** X9: whatever [UnicodeConverter.validate] accepts, it returns as a
    unicode string: a unicode value unchanged, a byte string decoded as
    ASCII (all its bytes below 128); validating the result again
    returns it unchanged. *)
Theorem X9_unicode_validate_result (converter : BasestringConverter.t)
    (val v : pyval) :
  UnicodeConverter.validate converter val = Ok v ->
  (exists u, v = VUnicode u
             /\ (val = VUnicode u
                 \/ exists s, val = VStr s /\ u = map ord s
                              /\ forallb (fun c => ord c <? 128) s = true))
  /\ UnicodeConverter.validate converter v = Ok v.
Proof.
  unfold UnicodeConverter.validate.
  assert (forall w x, BasestringConverter.validate converter w = Ok x -> x = w) as Hid.
  { intros w x. unfold BasestringConverter.validate.
    destruct (getattr _) as [m|]; [|discriminate]. cbn [rbind].
    destruct (len w) as [l|]; [|discriminate]. cbn [rbind].
    destruct (and_gt m l); [discriminate|].
    destruct (l =? 0); [discriminate|]. now intros [= <-]. }
  destruct val; cbn [rbind]; try discriminate.
  - intros E. pose proof (Hid _ _ E) as ->. exfalso.
    unfold BasestringConverter.validate in E.
    destruct (getattr _); discriminate.
  - unfold UnicodeConverter.decode_ascii.
    destruct (forallb _ s) eqn:Ha; cbn [rbind]; [|discriminate].
    intros E. pose proof (Hid _ _ E) as ->. split.
    + exists (map ord s). split; [reflexivity|]. right. now exists s.
    + exact E.
  - intros E. pose proof (Hid _ _ E) as ->. split.
    + exists u. split; [reflexivity | now left].
    + exact E.
Qed.

Lemma X9_unicode_validate_result_witness :
  UnicodeConverter.validate
    {| BasestringConverter.attr := None;
       BasestringConverter.max_len := Some (Some 3);
       BasestringConverter.db_encoding := VNone |} (VUnicode [97; 98])
  = Ok (VUnicode [97; 98]).
Proof.
  refine (proj2 (X9_unicode_validate_result
                   {| BasestringConverter.attr := None;
                      BasestringConverter.max_len := Some (Some 3);
                      BasestringConverter.db_encoding := VNone |}
                   (VStr ["a"; "b"]%byte) (VUnicode [97; 98]) _)).
  reflexivity.
Defined.

(** X10: for an attribute of a large-text type, [init] refuses a
    declared length with TypeError; without one it leaves the converter
    unbounded: [max_len] is None, the column type is TEXT, and every
    value of positive length is accepted. *)
Theorem X10_clob_unbounded (a : Attr) (converter : BasestringConverter.t)
    (kw : gmap string pyval) :
  is_clob (py_type a) = true ->
  (forall x, args a = [x] -> x <> VNone ->
             BasestringConverter.init a converter kw = Raise TypeError)
  /\ (args a = [] ->
      exists converter' kw',
        BasestringConverter.init a converter kw = Ok (converter', kw')
        /\ BasestringConverter.max_len converter' = Some None
        /\ BasestringConverter.sql_type converter'
           = Ok (TEXT_CHARACTER_SET (BasestringConverter.db_encoding converter'))
        /\ forall val l, len val = Ok l -> 0 < l ->
             BasestringConverter.validate converter' val = Ok val).
Proof.
  intros Hc. split.
  - intros x Ha Hx. unfold BasestringConverter.init. rewrite Ha, Hc.
    cbn [rbind]. destruct x; try reflexivity. contradiction.
  - intros Ha. unfold BasestringConverter.init. rewrite Ha, Hc. cbn [rbind].
    destruct (pop _ _ kw) as [enc kw'] eqn:Ep. eexists _, _.
    split; [reflexivity|]. split; [reflexivity|]. split; [reflexivity|].
    intros val l Hl Hpos.
    apply (basestring_validate_accepts _ None); [reflexivity|].
    split; [reflexivity|]. exists l. auto.
Qed.

Lemma X10_clob_unbounded_witness :
  exists converter' kw',
    BasestringConverter.init longstr_attr
      (BasestringConverter.fresh (Some longstr_attr)) ∅ = Ok (converter', kw')
    /\ BasestringConverter.max_len converter' = Some None.
Proof.
  destruct (proj2 (X10_clob_unbounded longstr_attr
                     (BasestringConverter.fresh (Some longstr_attr)) ∅ eq_refl)
              eq_refl) as (c & k & E & Hm & _).
  exists c, k. split; assumption.
Defined.

Lemma basestring_init_keys a converter kw converter' kw' :
  BasestringConverter.init a converter kw = Ok (converter', kw') ->
  (length (args a) <= 1)%nat
  /\ kw' = delete "db_encoding" kw
  /\ BasestringConverter.db_encoding converter'
     = default (VStr ["u"; "t"; "f"; "8"]%byte) (kw !! "db_encoding").
Proof.
  unfold BasestringConverter.init. intros H.
  assert (length (args a) <= 1)%nat as Hlen.
  { destruct (args a) as [|x [|y l]]; cbn; try lia. discriminate H. }
  destruct (match args a with [] => _ | _ => _ end) as [m0|]; [|discriminate].
  cbn [rbind] in H.
  destruct (if is_clob (py_type a) then _ else _) as [m1|]; [|discriminate].
  cbn [rbind] in H. unfold pop in H. injection H as <- <-.
  repeat split. exact Hlen.
Qed.

(** X11: a Unicode converter is constructed from an attribute only if
    the attribute has at most one positional argument and no keyword
    option other than [db_encoding]; a Str converter only if it has at
    most one positional argument and no keyword option other than
    [db_encoding] and [encoding]. What the converter keeps is the
    option given, or 'utf8' for [db_encoding] and 'latin1' for
    [encoding] in its absence. *)
Theorem X11_text_options (a : Attr) :
  (forall converter,
     BasestringConverter.new (Some a) = Ok converter ->
     (length (args a) <= 1)%nat
     /\ (forall k, k <> "db_encoding" -> keyargs a !! k = None)
     /\ BasestringConverter.db_encoding converter
        = default (VStr ["u"; "t"; "f"; "8"]%byte) (keyargs a !! "db_encoding"))
  /\ (forall converter,
        StrConverter.new (Some a) = Ok converter ->
        (length (args a) <= 1)%nat
        /\ (forall k, k <> "db_encoding" -> k <> "encoding" ->
                      keyargs a !! k = None)
        /\ BasestringConverter.db_encoding (StrConverter.base converter)
           = default (VStr ["u"; "t"; "f"; "8"]%byte) (keyargs a !! "db_encoding")
        /\ StrConverter.encoding converter
           = default (VStr ["l"; "a"; "t"; "i"; "n"; "1"]%byte)
               (keyargs a !! "encoding")).
Proof.
  split.
  - intros converter. unfold BasestringConverter.new, Converter_init. intros H.
    destruct (BasestringConverter.init a _ (keyargs a)) as [[c kw']|] eqn:E;
      [|discriminate].
    cbn [rbind fst snd] in H.
    destruct (decide (kw' = ∅)) as [Hk|]; [|discriminate]. injection H as <-.
    apply basestring_init_keys in E as (Hlen & -> & Hd).
    split; [exact Hlen|]. split; [|exact Hd].
    intros k Hne. now apply (delete_empty_lookup "db_encoding").
  - intros converter. unfold StrConverter.new, Converter_init, StrConverter.init.
    intros H.
    destruct (BasestringConverter.init a _ (keyargs a)) as [[c kw']|] eqn:E;
      [|discriminate].
    cbn [rbind fst snd] in H. unfold pop in H. cbn [rbind fst snd] in H.
    destruct (decide (delete "encoding" kw' = ∅)) as [Hk|]; [|discriminate].
    injection H as <-.
    apply basestring_init_keys in E as (Hlen & -> & Hd). cbn.
    split; [exact Hlen|]. split; [|split; [exact Hd|]].
    + intros k H1 H2.
      rewrite <- (lookup_delete_ne (keyargs a) "db_encoding" k) by congruence.
      now apply (delete_empty_lookup "encoding").
    + now rewrite lookup_delete_ne by discriminate.
Qed.

Lemma X11_text_options_witness :
  BasestringConverter.db_encoding
    {| BasestringConverter.attr := Some unicode_koi8_attr;
       BasestringConverter.max_len := Some (Some 40);
       BasestringConverter.db_encoding := VStr ["k"; "o"; "i"; "8"]%byte |}
  = default (VStr ["u"; "t"; "f"; "8"]%byte)
      (keyargs unicode_koi8_attr !! "db_encoding")
  /\ StrConverter.encoding
       {| StrConverter.base :=
            {| BasestringConverter.attr := Some str_koi8_attr;
               BasestringConverter.max_len := Some (Some 200);
               BasestringConverter.db_encoding := VStr ["u"; "t"; "f"; "8"]%byte |};
          StrConverter.encoding := VStr ["k"; "o"; "i"; "8"]%byte |}
     = default (VStr ["l"; "a"; "t"; "i"; "n"; "1"]%byte)
         (keyargs str_koi8_attr !! "encoding").
Proof.
  assert (BasestringConverter.new (Some unicode_koi8_attr)
          = Ok {| BasestringConverter.attr := Some unicode_koi8_attr;
                  BasestringConverter.max_len := Some (Some 40);
                  BasestringConverter.db_encoding := VStr ["k"; "o"; "i"; "8"]%byte |})
    as E1 by (vm_compute; reflexivity).
  assert (StrConverter.new (Some str_koi8_attr)
          = Ok {| StrConverter.base :=
                    {| BasestringConverter.attr := Some str_koi8_attr;
                       BasestringConverter.max_len := Some (Some 200);
                       BasestringConverter.db_encoding :=
                         VStr ["u"; "t"; "f"; "8"]%byte |};
                  StrConverter.encoding := VStr ["k"; "o"; "i"; "8"]%byte |})
    as E2 by (vm_compute; reflexivity).
  exact (conj
    (proj2 (proj2 (proj1 (X11_text_options unicode_koi8_attr) _ E1)))
    (proj2 (proj2 (proj2 (proj2 (X11_text_options str_koi8_attr) _ E2))))).
Defined.

(** ** IntConverter, continued *)

(** What an option leaves as a bound: nothing for an absent option or
    None, the integer for an integer. *)
Lemma pop_int_bound_spec name kw b kw' :
  IntConverter.pop_int_bound name kw = Ok (b, kw') ->
  kw' = delete name kw
  /\ match kw !! name with
     | None | Some VNone => b = None
     | Some v => exists n, as_int v = Some n /\ b = Some n
     end.
Proof.
  unfold IntConverter.pop_int_bound, pop.
  destruct (kw !! name) as [v|]; cbn.
  - destruct v; cbn; try discriminate; intros [= <- <-];
      split; try reflexivity; eexists; split; reflexivity.
  - intros [= <- <-]. split; reflexivity.
Qed.

(** X12: an Integer converter is constructed from an attribute only if
    the attribute has no positional argument and no keyword option
    other than [min] and [max]; each bound it keeps is the integer
    given for that option, or None when the option is absent or None. *)
Theorem X12_int_options (a : Attr) (converter : IntConverter.t) :
  IntConverter.new (Some a) = Ok converter ->
  args a = []
  /\ (forall k, k <> "min" -> k <> "max" -> keyargs a !! k = None)
  /\ (exists mn mx,
        IntConverter.min_val converter = Some mn
        /\ IntConverter.max_val converter = Some mx
        /\ match keyargs a !! "min" with
           | None | Some VNone => mn = None
           | Some v => exists n, as_int v = Some n /\ mn = Some n
           end
        /\ match keyargs a !! "max" with
           | None | Some VNone => mx = None
           | Some v => exists n, as_int v = Some n /\ mx = Some n
           end).
Proof.
  unfold IntConverter.new, Converter_init, IntConverter.init. intros H.
  destruct (args a) as [|x l]; [|discriminate]. cbn [rbind] in H.
  destruct (IntConverter.pop_int_bound "min" (keyargs a)) as [[mn k1]|] eqn:E1;
    [|discriminate].
  cbn [rbind fst snd] in H.
  destruct (IntConverter.pop_int_bound "max" k1) as [[mx k2]|] eqn:E2;
    [|discriminate].
  cbn [rbind fst snd] in H.
  destruct (decide (k2 = ∅)) as [Hk|]; [|discriminate]. injection H as <-.
  apply pop_int_bound_spec in E1 as [-> Hmin].
  apply pop_int_bound_spec in E2 as [-> Hmax].
  rewrite lookup_delete_ne in Hmax by discriminate.
  split; [reflexivity|]. split.
  - intros k Hk1 Hk2.
    rewrite <- (lookup_delete_ne (keyargs a) "min" k) by congruence.
    now apply (delete_empty_lookup "max").
  - exists mn, mx. cbn. auto.
Qed.

Lemma X12_int_options_witness :
  args (int_attr (<["min" := VInt 5]> (<["max" := VInt 3]> ∅))) = [].
Proof.
  refine (proj1 (X12_int_options
            (int_attr (<["min" := VInt 5]> (<["max" := VInt 3]> ∅)))
            {| IntConverter.attr :=
                 Some (int_attr (<["min" := VInt 5]> (<["max" := VInt 3]> ∅)));
               IntConverter.min_val := Some (Some 5);
               IntConverter.max_val := Some (Some 3) |} _)).
  vm_compute. reflexivity.
Defined.

Lemma and_lt_true_iff bound val :
  and_lt bound val = true <-> exists a, bound = Some a /\ a <> 0 /\ val < a.
Proof.
  unfold and_lt. destruct bound as [a|].
  - destruct (Z.eqb_spec a 0) as [->|Ha]; cbn [negb andb].
    + split; [discriminate | intros (? & [= <-] & Hn & _); contradiction].
    + rewrite Z.ltb_lt. split; [intros Hl; now exists a|].
      now intros (? & [= <-] & _ & Hl).
  - split; [discriminate | intros (? & [=] & _)].
Qed.

Lemma and_gt_true_iff bound val :
  and_gt bound val = true <-> exists b, bound = Some b /\ b <> 0 /\ b < val.
Proof.
  unfold and_gt. destruct bound as [b|].
  - destruct (Z.eqb_spec b 0) as [->|Hb]; cbn [negb andb].
    + split; [discriminate | intros (? & [= <-] & Hn & _); contradiction].
    + rewrite Z.ltb_lt. split; [intros Hl; now exists b|].
      now intros (? & [= <-] & _ & Hl).
  - split; [discriminate | intros (? & [=] & _)].
Qed.

(** X13: on a converter whose bounds are assigned, [validate] returns
    a value exactly when its argument is an int, long or bool that is
    not below a non-zero [min] and not above a non-zero [max], and what
    it returns is the argument itself (a bool stays a bool); it raises
    TypeError exactly when the argument is of another type, and
    ValueError exactly when the argument is an integer below a non-zero
    [min] or above a non-zero [max]. *)
Theorem X13_int_validate_outcome (attr : option Attr) (mn mx : option Z)
    (val : pyval) :
  let converter :=
    {| IntConverter.attr := attr;
       IntConverter.min_val := Some mn;
       IntConverter.max_val := Some mx |} in
  (forall v,
     IntConverter.validate converter val = Ok v
     <-> v = val
         /\ exists n, (val = VInt n \/ exists b, val = VBool b /\ n = Z.b2z b)
                      /\ (forall a, mn = Some a -> a = 0 \/ a <= n)
                      /\ (forall b, mx = Some b -> b = 0 \/ n <= b))
  /\ (IntConverter.validate converter val = Raise TypeError
      <-> (forall n, val <> VInt n) /\ (forall b, val <> VBool b))
  /\ (IntConverter.validate converter val = Raise ValueError
      <-> exists n, (val = VInt n \/ exists b, val = VBool b /\ n = Z.b2z b)
                    /\ ((exists a, mn = Some a /\ a <> 0 /\ n < a)
                        \/ (exists b, mx = Some b /\ b <> 0 /\ b < n))).
Proof.
  intros converter. subst converter.
  assert (forall n, as_int val = Some n
                    <-> (val = VInt n \/ exists b, val = VBool b /\ n = Z.b2z b))
    as Hint.
  { intros n. destruct val; cbn; split;
      try discriminate;
      try (intros [E | (b' & E & _)]; discriminate E).
    - intros [= <-]. right. now exists b.
    - intros [E | (b' & [= <-] & ->)]; [discriminate E | reflexivity].
    - intros [= <-]. now left.
    - intros [[= <-] | (b' & E & _)]; [reflexivity | discriminate E]. }
  assert (IntConverter.validate
            {| IntConverter.attr := attr; IntConverter.min_val := Some mn;
               IntConverter.max_val := Some mx |} val
          = match as_int val with
            | None => Raise TypeError
            | Some n =>
                if and_lt mn n || and_gt mx n then Raise ValueError else Ok val
            end) as E.
  { unfold IntConverter.validate. destruct (as_int val) as [n|]; [|reflexivity].
    cbn. destruct (and_lt mn n); [reflexivity|]. cbn.
    destruct (and_gt mx n); reflexivity. }
  rewrite E. clear E.
  destruct (as_int val) as [n|] eqn:Ha.
  - pose proof (proj1 (Hint n) eq_refl) as Hshape.
    assert (forall n', (val = VInt n' \/ exists b, val = VBool b /\ n' = Z.b2z b)
                       -> n' = n) as Huniq.
    { intros n' H'. apply Hint in H'. congruence. }
    destruct (and_lt mn n || and_gt mx n) eqn:Hb.
    + split; [|split].
      * intros v. split; [discriminate|].
        intros (_ & n' & Hs & Hlo & Hhi). apply Huniq in Hs. subst n'.
        apply orb_true_iff in Hb as [Hb | Hb].
        -- apply and_lt_true_iff in Hb as (a & Ea & Hna & Hlt).
           destruct (Hlo a Ea); [contradiction | lia].
        -- apply and_gt_true_iff in Hb as (b & Eb & Hnb & Hlt).
           destruct (Hhi b Eb); [contradiction | lia].
      * split; [discriminate|]. intros [H1 H2]. exfalso.
        destruct Hshape as [-> | (b & -> & _)];
          [now apply (H1 n) | now apply (H2 b)].
      * split; [intros _|reflexivity]. exists n. split; [exact Hshape|].
        apply orb_true_iff in Hb as [Hb | Hb].
        -- left. now apply and_lt_true_iff.
        -- right. now apply and_gt_true_iff.
    + apply orb_false_elim in Hb as [Hlo Hhi].
      split; [|split].
      * intros v. split.
        -- intros [= <-]. split; [reflexivity|]. exists n.
           split; [exact Hshape|].
           split; [now apply and_lt_false_iff | now apply and_gt_false_iff].
        -- now intros [-> _].
      * split; [discriminate|]. intros [H1 H2]. exfalso.
        destruct Hshape as [-> | (b & -> & _)];
          [now apply (H1 n) | now apply (H2 b)].
      * split; [discriminate|].
        intros (n' & Hs & Hor). apply Huniq in Hs. subst n'.
        destruct Hor as [Hx | Hx].
        -- apply and_lt_true_iff in Hx. congruence.
        -- apply and_gt_true_iff in Hx. congruence.
  - assert ((forall n, val <> VInt n) /\ (forall b, val <> VBool b)) as Hno.
    { split; [intros n E | intros b E]; subst val; discriminate Ha. }
    split; [|split].
    + intros v. split; [discriminate|].
      intros (_ & n & Hs & _). apply Hint in Hs. congruence.
    + split; [intros _; exact Hno | reflexivity].
    + split; [discriminate|].
      intros (n & Hs & _). apply Hint in Hs. congruence.
Qed.

(** X14: a converter made for a type alone, without an attribute, is
    constructed without any check and has no fields assigned: the
    Integer converter then raises AttributeError on every integer
    (TypeError on other values), and the text converter raises
    AttributeError on every value. *)
Theorem X14_converter_without_attribute (val : pyval) :
  IntConverter.new None = Ok (IntConverter.fresh None)
  /\ IntConverter.validate (IntConverter.fresh None) val
     = match as_int val with
       | Some _ => Raise AttributeError
       | None => Raise TypeError
       end
  /\ BasestringConverter.new None = Ok (BasestringConverter.fresh None)
  /\ BasestringConverter.validate (BasestringConverter.fresh None) val
     = Raise AttributeError
  /\ BasestringConverter.sql_type (BasestringConverter.fresh None)
     = Raise AttributeError.
Proof.
  repeat split; reflexivity.
Qed.

(** ** DecimalConverter, continued *)

Section DecimalMore.

Import DecimalConverter.

Variable L : decimal_lib.

Lemma pop_decimal_bound_keys name kw b kw' :
  pop_decimal_bound L name kw = Ok (b, kw') -> kw' = delete name kw.
Proof.
  unfold pop_decimal_bound, pop.
  destruct (default VNone (kw !! name)) eqn:Ev;
    try (intros [= _ <-]; reflexivity);
    match goal with
    | |- context [Decimal_new L ?x] => destruct (Decimal_new L x)
    end; cbn; try discriminate; intros [= _ <-]; reflexivity.
Qed.

Lemma declared_precision_keys a kw :
  (declared_precision a kw).2
  = match args a with [] => delete "precision" kw | _ => kw end.
Proof. unfold declared_precision, pop. destruct (args a); reflexivity. Qed.

Lemma declared_scale_keys a kw :
  (declared_scale a kw).2
  = match args a with [_; _] => kw | _ => delete "scale" kw end.
Proof.
  unfold declared_scale, pop. destruct (args a) as [|x [|y [|z l]]]; reflexivity.
Qed.

Lemma init_keys a converter kw converter' kw' :
  init L a converter kw = Ok (converter', kw') ->
  (length (args a) <= 2)%nat
  /\ kw' = delete "max" (delete "min"
             (declared_scale a (declared_precision a kw).2).2)
  /\ exp converter'
     = option_map (fun s => {| coefficient := 1; exponent := - s |})
         (scale converter').
Proof.
  unfold init. intros H.
  destruct (Nat.ltb_spec 2 (length (args a))); [discriminate|].
  destruct (declared_precision a kw) as [vp k1]. cbn [fst snd].
  destruct (as_int vp) as [p|]; [|discriminate].
  destruct (p <=? 0); [discriminate|].
  destruct (declared_scale a k1) as [vs k2]. cbn [fst snd].
  destruct (as_int vs) as [s|]; [|discriminate].
  destruct (s <=? 0); [discriminate|].
  destruct (p <? s); [discriminate|].
  destruct (pop_decimal_bound L "min" k2) as [[b1 k3]|] eqn:E1; [|discriminate].
  cbn [rbind fst snd] in H.
  destruct (pop_decimal_bound L "max" k3) as [[b2 k4]|] eqn:E2; [|discriminate].
  cbn [rbind fst snd] in H. injection H as <- <-.
  apply pop_decimal_bound_keys in E1, E2. subst.
  split; [lia|]. split; reflexivity.
Qed.

Lemma delete_chain_empty (m : gmap string pyval) (ks : list string) k :
  foldr delete m ks = ∅ -> k ∉ ks -> m !! k = None.
Proof.
  revert m. induction ks as [|k0 ks IH]; intros m E Hk.
  - cbn in E. subst. apply lookup_empty.
  - cbn in E. apply not_elem_of_cons in Hk as [Hne Hk].
    assert (foldr delete m ks !! k = None) as Hn
      by (apply (delete_empty_lookup k0); [exact E | exact Hne]).
    clear E IH. revert Hn. induction ks as [|k1 ks IH]; cbn; [auto|].
    apply not_elem_of_cons in Hk as [Hne1 Hk].
    rewrite lookup_delete_ne by congruence. now apply IH.
Qed.


End DecimalMore.

Ltac not_a_key :=
  rewrite ?not_elem_of_cons;
  repeat split; first [congruence | discriminate | apply not_elem_of_nil].

(** X15: a Decimal converter is constructed from an attribute only if
    the attribute has at most two positional arguments and no keyword
    option other than [precision], [scale], [min] and [max]; moreover a
    precision given positionally excludes the keyword [precision], and
    a scale given positionally excludes the keyword [scale]. *)
Theorem X15_decimal_options (L : decimal_lib) (a : Attr)
    (converter : DecimalConverter.t) :
  DecimalConverter.new L (Some a) = Ok converter ->
  (length (args a) <= 2)%nat
  /\ (forall k, k <> "precision" -> k <> "scale" -> k <> "min" -> k <> "max" ->
                keyargs a !! k = None)
  /\ (args a <> [] -> keyargs a !! "precision" = None)
  /\ (length (args a) = 2%nat -> keyargs a !! "scale" = None).
Proof.
  unfold DecimalConverter.new, Converter_init. intros H.
  destruct (DecimalConverter.init L a _ (keyargs a)) as [[c kw']|] eqn:E;
    [|discriminate].
  cbn [rbind fst snd] in H. destruct (decide (kw' = ∅)) as [Hk|]; [|discriminate].
  apply init_keys in E as (Hlen & Hkw & _). subst kw'.
  rewrite declared_scale_keys, declared_precision_keys in Hk.
  split; [exact Hlen|].
  destruct (args a) as [|x [|y [|z l]]]; cbn [length] in *; try lia.
  - split; [|split; [congruence | discriminate]].
    intros k H1 H2 H3 H4.
    apply (delete_chain_empty _ ["max"; "min"; "scale"; "precision"] k Hk).
    not_a_key.
  - split; [|split; [|discriminate]].
    + intros k H1 H2 H3 H4.
      apply (delete_chain_empty _ ["max"; "min"; "scale"] k Hk). not_a_key.
    + intros _.
      apply (delete_chain_empty _ ["max"; "min"; "scale"] "precision" Hk).
      not_a_key.
  - split; [|split].
    + intros k H1 H2 H3 H4.
      apply (delete_chain_empty _ ["max"; "min"] k Hk). not_a_key.
    + intros _.
      apply (delete_chain_empty _ ["max"; "min"] "precision" Hk). not_a_key.
    + intros _.
      apply (delete_chain_empty _ ["max"; "min"] "scale" Hk). not_a_key.
Qed.


Lemma X15_decimal_options_witness :
  (length (args decimal_plain) <= 2)%nat.
Proof.
  refine (proj1 (X15_decimal_options no_decimal_text decimal_plain
                   decimal_plain_converter _)).
  vm_compute. reflexivity.
Defined.



(** ** DateConverter, continued *)

Section DateMore.

Lemma datetime_new_valid y m d t :
  datetime_new y m d = Ok t ->
  valid_date (datetime_date t) = true
  /\ datetime_date t = {| year := y; month := m; day := d |}.
Proof.
  unfold datetime_new. destruct (valid_ymd y m d) eqn:Hv; [|discriminate].
  intros [= <-]. split; [exact Hv | reflexivity].
Qed.


Lemma strptime_trailing d extra :
  valid_date d = true -> extra <> [] ->
  strptime_Ymd (map ord (date_literal d ++ extra)) = Raise ValueError.
Proof.
  intros H Hx. rewrite map_app, map_ord_date_literal by exact H.
  pose proof (valid_ymd_bounds _ _ _ H) as (Hy & Hm & Hd).
  unfold strptime_Ymd, format_regex_match. cbn [app].
  rewrite re_Y_digits by lia. cbn [re_lit]. rewrite Z.eqb_refl.
  erewrite re_m_digits; [| exact Hm |].
  2:{ cbn [re_lit]. rewrite Z.eqb_refl.
      apply re_d_digits; [exact Hd | reflexivity]. }
  destruct extra; [contradiction | reflexivity].
Qed.

End DateMore.

(** X18: [DateConverter.validate] accepts exactly dates and datetimes
    and rejects every other value with TypeError; what it returns is a
    date, validating it again returns it unchanged, and [py2sql] sends
    the same value for the validated value as for the original. *)
Theorem X18_date_validate (val : pyval) :
  match DateConverter.validate val with
  | Ok v =>
      (exists d, v = VDate d
                 /\ (val = VDate d
                     \/ exists t, val = VDatetime t /\ d = datetime_date t))
      /\ DateConverter.validate v = Ok v
      /\ DateConverter.py2sql v = DateConverter.py2sql val
  | Raise e =>
      e = TypeError
      /\ (forall d, val <> VDate d) /\ (forall t, val <> VDatetime t)
  end.
Proof.
  destruct val; cbn;
    try (split; [reflexivity | split; intros; discriminate]).
  - split; [exists d; auto|]. split; reflexivity.
  - split; [eexists; split; [reflexivity | right; eexists; split; reflexivity]|].
    split; reflexivity.
Qed.


Lemma date_literal_no_nul d :
  valid_date d = true -> existsb (Z.eqb 0) (map ord (date_literal d)) = false.
Proof.
  intros H. rewrite map_ord_date_literal by exact H.
  apply valid_ymd_bounds in H as (Hy & Hm & Hd). cbn [existsb].
  repeat match goal with
         | |- context [0 =? ?x] =>
             replace (0 =? x) with false
               by (symmetry; apply Z.eqb_neq; Z.div_mod_to_equations; lia)
         end.
  reflexivity.
Qed.

Lemma existsb_nul s :
  existsb (Z.eqb 0) (map ord s) = existsb (byte_eqb x00) s.
Proof.
  induction s as [|c s IH]; [reflexivity|]. cbn [map existsb]. rewrite IH.
  f_equal. destruct c; reflexivity.
Qed.

(** X20: [sql2py] refuses any text that continues after the date: the
    [YYYY-MM-DD] text of a valid date followed by anything raises
    ValueError, as the text of a timestamp at midnight does, unless
    what follows contains a NUL byte, in which case the text is refused
    as an argument, with TypeError. *)
Theorem X20_date_sql2py_trailing_text (d : date) (extra : list byte) :
  valid_date d = true -> extra <> [] ->
  DateConverter.sql2py (VStr (date_literal d ++ extra))
  = Raise (if existsb (byte_eqb x00) extra then TypeError else ValueError)
  /\ DateConverter.sql2py (VStr (midnight_literal d)) = Raise ValueError.
Proof.
  intros H Hx.
  assert (forall e, e <> [] ->
            DateConverter.sql2py (VStr (date_literal d ++ e))
            = Raise (if existsb (byte_eqb x00) e then TypeError else ValueError))
    as G.
  { intros e He. unfold DateConverter.sql2py, DateConverter.strptime_argument.
    rewrite map_app, existsb_app, date_literal_no_nul by exact H.
    cbn [orb]. rewrite existsb_nul.
    destruct (existsb (byte_eqb x00) e); [reflexivity|]. cbn [rbind].
    rewrite <- map_app, strptime_trailing by assumption. reflexivity. }
  split; [now apply G|].
  unfold midnight_literal. rewrite G by discriminate. reflexivity.
Qed.

Lemma X20_date_sql2py_trailing_text_witness :
  DateConverter.sql2py (VStr (midnight_literal date_2020_01_05))
  = Raise ValueError.
Proof.
  refine (proj2 (X20_date_sql2py_trailing_text date_2020_01_05 ["Z"%byte] _ _)).
  - reflexivity.
  - discriminate.
Defined.

(** ** The converters without options, and the registry *)

(** X21: [DatetimeConverter.validate] accepts exactly datetimes and
    returns them unchanged; everything it accepts [DateConverter.validate]
    accepts too, reduced to its date, while a plain date, which the Date
    converter accepts, is refused with TypeError. *)
Theorem X21_datetime_validate (val : pyval) :
  match DatetimeConverter_validate val with
  | Ok v =>
      v = val
      /\ exists t, val = VDatetime t
                   /\ DateConverter.validate val = Ok (VDate (datetime_date t))
  | Raise e => e = TypeError /\ forall t, val <> VDatetime t
  end
  /\ (forall d, DatetimeConverter_validate (VDate d) = Raise TypeError
                /\ DateConverter.validate (VDate d) = Ok (VDate d)).
Proof.
  split; [|intros d; split; reflexivity].
  destruct val; cbn; try (split; [reflexivity | intros; discriminate]).
  split; [reflexivity|]. eexists. split; reflexivity.
Qed.

(** X22: a Boolean, Binary, Datetime or Date converter is constructed
    from an attribute exactly when the attribute has no positional
    argument and no keyword option. *)
Theorem X22_plain_converter_options (a : Attr) :
  plain_new (Some a) = Ok tt <-> args a = [] /\ keyargs a = ∅.
Proof.
  unfold plain_new, Converter_init, plain_init. split.
  - destruct (args a); [|discriminate]. cbn.
    destruct (decide (keyargs a = ∅)); [now split | discriminate].
  - intros [-> ->]. reflexivity.
Qed.

Lemma X22_plain_converter_options_witness :
  plain_new (Some {| py_type := TDate; args := []; keyargs := ∅ |}) = Ok tt.
Proof.
  apply (proj2 (X22_plain_converter_options
                  {| py_type := TDate; args := []; keyargs := ∅ |})).
  split; reflexivity.
Defined.

(** X23: the registry picks the most specific converter: the class it
    returns is registered for a base of the given type, and that base
    is itself a subclass of every other registered base of the type,
    so [bool] gets the Boolean and not the Integer converter, and
    [datetime] the Datetime and not the Date converter. Every type of
    the model is served; a class unrelated to them raises TypeError. *)
Theorem X23_registry_most_specific (c : pyclass) :
  match _get_converter_type_by_py_type c with
  | Ok k =>
      issubclass c (registered_for k) = true
      /\ forall k', issubclass c (registered_for k') = true ->
                    issubclass (Known (registered_for k)) (registered_for k') = true
  | Raise e =>
      e = TypeError /\ c = Unrelated
  end
  /\ (forall t, exists k, _get_converter_type_by_py_type (Known t) = Ok k)
  /\ _get_converter_type_by_py_type (Known TBool) = Ok BoolConverter_cls
  /\ _get_converter_type_by_py_type (Known TDatetime) = Ok DatetimeConverter_cls.
Proof.
  split; [|split; [|split; reflexivity]].
  - destruct c as [t|]; [|split; reflexivity].
    destruct t; cbn; (split; [reflexivity|]); intros k'; destruct k'; cbn;
      congruence.
  - intros t. destruct t; eexists; reflexivity.
Qed.

(** ** Pool, continued *)

Section PoolMore.

Context `{Driver}.

Import Pool.

Lemma is_con_not_held c held : held <> Some c -> is_con c held = false.
Proof.
  intros Hne. destruct held as [h|]; [|reflexivity]. cbn.
  apply Nat.eqb_neq. intros ->. now apply Hne.
Qed.

Lemma release_foreign c s :
  con (pool s) <> Some c -> release c s = (Raise AssertionError, s).
Proof.
  intros Hne. unfold release, bind, get_pool.
  rewrite (is_con_not_held _ _ Hne). reflexivity.
Qed.

Lemma close_foreign c s :
  con (pool s) <> Some c -> close c s = (Raise AssertionError, s).
Proof.
  intros Hne. unfold close, bind, get_pool.
  rewrite (is_con_not_held _ _ Hne). reflexivity.
Qed.

Lemma connect_after_cleared p e :
  (connect {| pool := cleared p; outside := e |}).1
  = (pgdb_connect (pool_args p) (pool_keyargs p) (db e)).1
  /\ calls (outside (connect {| pool := cleared p; outside := e |}).2)
     = calls e ++ [CallConnect]
  /\ con (pool (connect {| pool := cleared p; outside := e |}).2)
     = match (pgdb_connect (pool_args p) (pool_keyargs p) (db e)).1 with
       | Ok h => Some h
       | Raise _ => None
       end.
Proof.
  rewrite connect_opens by reflexivity. cbn.
  destruct (pgdb_connect (pool_args p) (pool_keyargs p) (db e)) as [[h|x] w1];
    cbn; repeat split.
Qed.

End PoolMore.

(** X24: [release] and [close] called with a handle that is not the
    one the pool holds (or when it holds none) raise AssertionError
    and do nothing else: no call reaches the driver and the pool keeps
    what it held. *)
Theorem X24_pool_foreign_handle `{Driver} (c : handle) (s : Pool.state) :
  Pool.con (Pool.pool s) <> Some c ->
  Pool.release c s = (Raise AssertionError, s)
  /\ Pool.close c s = (Raise AssertionError, s).
Proof.
  intros Hne. split; [now apply release_foreign | now apply close_foreign].
Qed.

Lemma X24_pool_foreign_handle_witness :
  Pool.release 3%nat (sim_state (Some 7%nat) Sim.calm)
  = (Raise AssertionError, sim_state (Some 7%nat) Sim.calm).
Proof.
  refine (proj1 (X24_pool_foreign_handle (H := Sim.driver) 3%nat
                   (sim_state (Some 7%nat) Sim.calm) _)).
  discriminate.
Defined.

(** X25: [close] on the held handle clears the pool's handle before
    it calls the connection's [close], exactly once, and its outcome is
    that call's outcome: the handle is cleared even when the call
    raises. The next [connect] then calls the factory, with the
    arguments the pool was made with, and holds the handle it returns;
    if the factory raises, the pool keeps holding nothing. *)
Theorem X25_pool_close_then_connect `{Driver} (c : handle) (s : Pool.state) :
  Pool.con (Pool.pool s) = Some c ->
  let after_close := (Pool.close c s).2 in
  let after_connect := (Pool.connect after_close).2 in
  (Pool.close c s).1 = (con_close c (db (Pool.outside s))).1
  /\ Pool.con (Pool.pool after_close) = None
  /\ calls (Pool.outside after_close)
     = calls (Pool.outside s) ++ [CallClose c]
  /\ (Pool.connect after_close).1
     = (pgdb_connect (Pool.pool_args (Pool.pool s))
          (Pool.pool_keyargs (Pool.pool s)) (db (Pool.outside after_close))).1
  /\ calls (Pool.outside after_connect)
     = calls (Pool.outside s) ++ [CallClose c; CallConnect]
  /\ Pool.con (Pool.pool after_connect)
     = match (Pool.connect after_close).1 with
       | Ok h => Some h
       | Raise _ => None
       end.
Proof.
  intros E. cbv zeta. rewrite (close_spec c s E).
  destruct (con_close c (db (Pool.outside s))) as [r w1]. cbn [fst snd].
  destruct (connect_after_cleared (Pool.pool s)
              {| db := w1; calls := calls (Pool.outside s) ++ [CallClose c] |})
    as (A & B & C).
  cbn [db calls] in *. rewrite A, B, C, <- app_assoc. repeat split.
Qed.

Lemma X25_pool_close_then_connect_witness :
  Pool.con (Pool.pool (Pool.close 7%nat (sim_state (Some 7%nat) Sim.calm)).2)
  = None.
Proof.
  refine (proj1 (proj2 (X25_pool_close_then_connect (H := Sim.driver) 7%nat
                          (sim_state (Some 7%nat) Sim.calm) _))).
  reflexivity.
Defined.

(** X26: after a [release] whose rollback raised, the pool holds
    nothing, and the next [connect] opens a connection anew: it calls
    the factory, once, with the arguments the pool was made with, and
    the pool holds the handle the factory returns. *)
Theorem X26_pool_reopens_after_failed_release `{Driver}
    (c : handle) (s : Pool.state) (e : exn) (w1 : world) :
  Pool.con (Pool.pool s) = Some c ->
  con_rollback c (db (Pool.outside s)) = (Raise e, w1) ->
  let after_release := (Pool.release c s).2 in
  let after_connect := (Pool.connect after_release).2 in
  Pool.con (Pool.pool after_release) = None
  /\ (Pool.connect after_release).1
     = (pgdb_connect (Pool.pool_args (Pool.pool s))
          (Pool.pool_keyargs (Pool.pool s)) (db (Pool.outside after_release))).1
  /\ calls (Pool.outside after_connect)
     = calls (Pool.outside s) ++ [CallRollback c; CallClose c; CallConnect]
  /\ Pool.con (Pool.pool after_connect)
     = match (Pool.connect after_release).1 with
       | Ok h => Some h
       | Raise _ => None
       end.
Proof.
  intros E Hr. cbv zeta. rewrite (release_spec c s E), Hr.
  destruct (con_close c w1) as [[u|e2] w2]; cbn [fst snd];
    match goal with
    | |- context [Pool.connect {| Pool.pool := cleared ?p; Pool.outside := ?o |}] =>
        destruct (connect_after_cleared p o) as (A & B & C)
    end;
    cbn [db calls] in *; rewrite A, B, C, <- !app_assoc; repeat split.
Qed.

Lemma X26_pool_reopens_after_failed_release_witness :
  (Pool.connect (Pool.release 7%nat (sim_state (Some 7%nat) lost)).2).1
  = Ok 8%nat.
Proof.
  pose proof (X26_pool_reopens_after_failed_release (H := Sim.driver) 7%nat
                (sim_state (Some 7%nat) lost) connection_lost lost
                eq_refl eq_refl) as P.
  cbv zeta in P. destruct P as (_ & P & _). rewrite P. reflexivity.
Defined.

(** ** PGTable.create, continued *)

Section TableMore.

Lemma append_cons a s t :
  (String a s ++ t)%string = String a (s ++ t)%string.
Proof. reflexivity. Qed.

Lemma append_nil t : (EmptyString ++ t)%string = t.
Proof. reflexivity. Qed.

Lemma prefix_spec n h :
  String.prefix n h = true <-> exists post, h = (n ++ post)%string.
Proof.
  revert h. induction n as [|a n IH]; intros h.
  - split; [intros _; now exists h | intros _; destruct h; reflexivity].
  - destruct h as [|b h]; cbn [String.prefix].
    + split; [discriminate | intros [post E]; discriminate E].
    + destruct (Ascii.ascii_dec a b) as [->|Hne].
      * rewrite IH. split; intros [post E]; exists post.
        -- rewrite append_cons. now rewrite E.
        -- rewrite append_cons in E. now injection E.
      * split; [discriminate|]. intros [post E].
        rewrite append_cons in E. congruence.
Qed.

Lemma contains_spec n h : contains n h = true <-> occurs_in n h.
Proof.
  unfold occurs_in. induction h as [|b h IH].
  - cbn [contains]. rewrite orb_false_r, prefix_spec. split.
    + intros [post E]. exists EmptyString, post. now rewrite append_nil.
    + intros (pre & post & E). destruct pre as [|a pre].
      * rewrite append_nil in E. now exists post.
      * rewrite append_cons in E. discriminate E.
  - cbn [contains]. rewrite orb_true_iff, prefix_spec, IH. split.
    + intros [[post E] | (pre & post & E)].
      * exists EmptyString, post. now rewrite append_nil.
      * exists (String b pre), post. rewrite append_cons. now rewrite E.
    + intros (pre & post & E). destruct pre as [|a pre].
      * left. rewrite append_nil in E. now exists post.
      * right. rewrite append_cons in E. injection E as <- E. now exists pre, post.
Qed.

End TableMore.

(** X27: for every driver, [create] calls the inherited CREATE exactly
    once and then at most one rollback, and the rollback is issued
    exactly when the CREATE raised a database error whose message
    contains "already exists"; when the CREATE succeeds, [create]
    returns normally with the state the CREATE left. *)
Theorem X27_create_calls `{Driver} (h : handle) (s : env) :
  (calls (PGTable.create h s).2 = calls s ++ [CallTableCreate h; CallRollback h]
   <-> exists e w, Table_create h (db s) = (Raise e, w)
                   /\ already_exists e = true)
  /\ (calls (PGTable.create h s).2 = calls s ++ [CallTableCreate h]
      \/ calls (PGTable.create h s).2
         = calls s ++ [CallTableCreate h; CallRollback h])
  /\ (forall w, Table_create h (db s) = (Ok tt, w) ->
        PGTable.create h s
        = (Ok tt, {| db := w; calls := calls s ++ [CallTableCreate h] |})).
Proof.
  assert (forall l : list call,
            l ++ [CallTableCreate h] <> l ++ [CallTableCreate h; CallRollback h])
    as Hdiff.
  { intros l E. apply app_inv_head in E. discriminate E. }
  destruct (Table_create h (db s)) as [[[]|e] w] eqn:E.
  - rewrite (create_succeeds h s w E). cbn [snd calls]. split; [|split].
    + split; [intros X; now apply Hdiff in X | intros (? & ? & [=] & _)].
    + now left.
    + now intros ? [= <-].
  - destruct (already_exists e) eqn:Hae.
    + rewrite (create_recovers h s e w E Hae).
      destruct (con_rollback h w) as [[u|e2] w2]; cbn [snd calls];
        rewrite <- app_assoc; cbn [app]; (split; [|split]);
        try (now right); try (intros ? [=]);
        (split; [intros _; now exists e, w | reflexivity]).
    + rewrite (create_propagates h s e w E Hae). cbn [snd calls].
      split; [|split].
      * split; [intros X; now apply Hdiff in X|].
        intros (e' & w' & [= <- <-] & X). congruence.
      * now left.
      * intros ? [=].
Qed.

(** X28: when the inherited CREATE raises a database error, [create]
    issues the rollback exactly when the message of the error is of the
    form [pre ++ "already exists" ++ post], the words anywhere in the
    message and in this spelling; when the message is of no such form,
    [create] raises the same error and issues no rollback. *)
Theorem X28_create_recovers_iff `{Driver} (h : handle) (s : env)
    (e : exn) (w : world) :
  Table_create h (db s) = (Raise e, w) ->
  is_DatabaseError e = true ->
  (calls (PGTable.create h s).2 = calls s ++ [CallTableCreate h; CallRollback h]
   <-> occurs_in "already exists" (message e))
  /\ (~ occurs_in "already exists" (message e) ->
      PGTable.create h s
      = (Raise e, {| db := w; calls := calls s ++ [CallTableCreate h] |})).
Proof.
  intros E Hk.
  assert (already_exists e = contains "already exists" (message e)) as Hae
    by (unfold already_exists; now rewrite Hk).
  split.
  - rewrite <- contains_spec, <- Hae.
    destruct (already_exists e) eqn:Hb.
    + rewrite (create_recovers h s e w E Hb).
      destruct (con_rollback h w) as [[u|e2] w2]; cbn [snd calls];
        rewrite <- app_assoc; cbn [app]; split; reflexivity.
    + rewrite (create_propagates h s e w E Hb). cbn [snd calls].
      split; [|discriminate].
      intros X. apply app_inv_head in X. discriminate X.
  - intros Hno. apply create_propagates; [exact E|].
    rewrite Hae. destruct (contains "already exists" (message e)) eqn:Hc;
      [|reflexivity].
    apply contains_spec in Hc. contradiction.
Qed.

Lemma X28_create_recovers_iff_witness :
  calls (PGTable.create 7%nat (sim_env exists_only)).2
  = [CallTableCreate 7%nat; CallRollback 7%nat].
Proof.
  refine (proj2 (proj1 (X28_create_recovers_iff (H := Sim.driver) 7%nat
                          (sim_env exists_only) relation_exists
                          (Sim.set_aborted true exists_only) _ _)) _).
  - reflexivity.
  - reflexivity.
  - exists "relation person "%string, EmptyString. reflexivity.
Defined.
